(** * A service worker's request routing and cache maintenance (sw.js)

    Shallow embedding of [sw.js]: the three event listeners ([install],
    [activate], [fetch]) and the helpers they call, over an executable model
    of the part of the browser they talk to (URL, Request, Response, Cache,
    CacheStorage, fetch and promises). *)

From Stdlib Require Import String Ascii List Bool Arith Lia Permutation.
Import ListNotations.
Open Scope string_scope.

(** ** Strings, as the JavaScript methods the worker calls *)

Module Str.

(** [s.includes(p)] *)
Fixpoint includes (s p : string) : bool :=
  prefix p s ||
  match s with
  | EmptyString => false
  | String _ s' => includes s' p
  end.

(** [s.endsWith(p)] *)
Fixpoint endsWith (s p : string) : bool :=
  String.eqb s p ||
  match s with
  | EmptyString => false
  | String _ s' => endsWith s' p
  end.

(** Splits [s] before its first character satisfying [stop]. *)
Fixpoint break (stop : ascii -> bool) (s : string) : string * string :=
  match s with
  | EmptyString => (EmptyString, EmptyString)
  | String c s' =>
      if stop c then (EmptyString, s)
      else let (a, b) := break stop s' in (String c a, b)
  end.

Fixpoint all (p : ascii -> bool) (s : string) : bool :=
  match s with
  | EmptyString => true
  | String c s' => p c && all p s'
  end.

(** [s] without the prefix [p], when it has it. *)
Fixpoint strip (p s : string) : option string :=
  match p, s with
  | EmptyString, _ => Some s
  | String a p', String b s' => if Ascii.eqb a b then strip p' s' else None
  | String _ _, EmptyString => None
  end.

Definition ch (a : string) (c : ascii) : bool := String.eqb a (String c EmptyString).

End Str.

(** ** The regular expression of [isImageLike]

    The pattern tested on [url.pathname] (sw.js, line 68): somewhere in the
    subject a literal dot, one of the six extensions png, jpg, jpeg, gif,
    webp, svg, then an optional group made of a question mark and any run of
    characters that are not line terminators, then the end of the subject.
    No [i] flag: the extensions are lower case only.

    A string is the UTF-8 encoding of the JavaScript string, so the four
    line terminators that the pattern's dot refuses are the byte sequences
    of U+000A, U+000D, U+2028 and U+2029. *)

Module ImageRegex.

Definition extensions : list string := ["png"; "jpg"; "jpeg"; "gif"; "webp"; "svg"].

Definition line_terminators : list string :=
  [ String "010"%char EmptyString;
    String "013"%char EmptyString;
    String "226"%char (String "128"%char (String "168"%char EmptyString));
    String "226"%char (String "128"%char (String "169"%char EmptyString)) ].

(** A line terminator starts at the first character of [s]. *)
Definition terminator_here (s : string) : bool :=
  existsb (fun t => prefix t s) line_terminators.

(** A run of the regular expression's [.] up to the end of the subject: no
    line terminator starts anywhere in [s]. *)
Fixpoint dots (s : string) : bool :=
  match s with
  | EmptyString => true
  | String _ s' => negb (terminator_here s) && dots s'
  end.

(** The optional query group, then the end of the subject. *)
Definition tail (s : string) : bool :=
  match s with
  | EmptyString => true
  | String c s' => Ascii.eqb c "?"%char && dots s'
  end.

(** A match that starts at the first character of [s]. *)
Definition here (s : string) : bool :=
  existsb (fun ext =>
             match Str.strip (String "."%char ext) s with
             | Some rest => tail rest
             | None => false
             end) extensions.

(** [regex.test(s)] *)
Fixpoint test (s : string) : bool :=
  match s with
  | EmptyString => false
  | String _ s' => here s || test s'
  end.

End ImageRegex.

(** ** URL

    The properties of a [URL] object that the worker reads.  [parse] is
    [new URL(s)] on the serialization of an absolute http(s) URL, which is
    what [Request.url] and [self.location.href] always hold: scheme, "://",
    host (with a port, if any), path, then an optional query and fragment. *)

Record URL := mkURL {
  href : string;
  origin : string;
  host : string;
  pathname : string
}.

Module Url.

Definition after_scheme (s : string) : string :=
  match Str.strip ":" s with
  | Some r => match Str.strip "//" r with Some r' => r' | None => r end
  | None => s
  end.

Definition path_end (c : ascii) : bool := Str.ch "?" c || Str.ch "#" c.
Definition host_end (c : ascii) : bool := Str.ch "/" c || path_end c.

Definition parse (s : string) : URL :=
  let (scheme, r1) := Str.break (Str.ch ":") s in
  let (h, r2) := Str.break host_end (after_scheme r1) in
  let (p, _) := Str.break path_end r2 in
  {| href := s;
     origin := scheme ++ "://" ++ h;
     host := h;
     pathname := if String.eqb p "" then "/" else p |}.

(** The path up to and including its last slash. *)
Fixpoint dirname (p : string) : string :=
  match p with
  | EmptyString => EmptyString
  | String c p' =>
      if Str.includes p' "/" then String c (dirname p')
      else if Str.ch "/" c then "/" else EmptyString
  end.

(** The URL without its fragment: what the Cache compares. *)
Definition without_fragment (s : string) : string :=
  fst (Str.break (Str.ch "#") s).

Definition has_scheme (s : string) : bool :=
  let (pre, rest) := Str.break (fun c => Str.ch ":" c || host_end c) s in
  negb (String.eqb pre "") && prefix ":" rest.

(** A URL string resolved against [base], as the [Request] constructor and
    [cache.match] do with a string argument.  Covers what the worker
    passes: absolute URLs, root-relative paths, and relative paths with an
    optional leading "./" (no ".." segments). *)
Definition resolve (base : URL) (s : string) : string :=
  if has_scheme s then s
  else if prefix "/" s then origin base ++ s
  else origin base ++ dirname (pathname base) ++
       match Str.strip "./" s with Some r => r | None => s end.

End Url.

(** ** Request and Response *)

Inductive RequestMode := SameOrigin | NoCors | Cors | Navigate | Websocket.
Inductive RequestCache := CacheDefault | NoStore | Reload | NoCache | ForceCache | OnlyIfCached.
Inductive RequestCredentials := Omit | CredSameOrigin | Include.

Record Request := mkRequest {
  req_url : string;
  req_method : string;
  req_mode : RequestMode;
  req_destination : string;
  req_headers : list (string * string);  (* names in lower case *)
  req_cache : RequestCache;
  req_credentials : RequestCredentials
}.

(** [req.headers.get(name)]: [None] is JavaScript's [null]. *)
Fixpoint headers_get (h : list (string * string)) (name : string) : option string :=
  match h with
  | [] => None
  | (n, v) :: h' => if String.eqb n name then Some v else headers_get h' name
  end.

Inductive ResponseType := Basic | CorsType | Default | Error | Opaque | OpaqueRedirect.

Record Response := mkResponse {
  res_type : ResponseType;
  res_code : nat;              (* the code of the status line *)
  res_statusText : string;
  res_body : string
}.

(** [res.status]: a network error and the filtered responses of type opaque
    and opaqueredirect show status 0. *)
Definition res_status (r : Response) : nat :=
  match res_type r with
  | Error | Opaque | OpaqueRedirect => 0
  | Basic | CorsType | Default => res_code r
  end.

(** [Response.error()] *)
Definition Response_error : Response :=
  {| res_type := Error; res_code := 0; res_statusText := ""; res_body := "" |}.

(** [new Response(body, { status, statusText })] *)
Definition new_Response (body : string) (status : nat) (statusText : string) : Response :=
  {| res_type := Default; res_code := status; res_statusText := statusText; res_body := body |}.

Definition ResponseType_eqb (a b : ResponseType) : bool :=
  match a, b with
  | Basic, Basic | CorsType, CorsType | Default, Default
  | Error, Error | Opaque, Opaque | OpaqueRedirect, OpaqueRedirect => true
  | _, _ => false
  end.

Definition RequestMode_eqb (a b : RequestMode) : bool :=
  match a, b with
  | SameOrigin, SameOrigin | NoCors, NoCors | Cors, Cors
  | Navigate, Navigate | Websocket, Websocket => true
  | _, _ => false
  end.

(** ** Promises and JavaScript values

    A promise is modelled by how it ends: fulfilled with a value, rejected,
    or never settled (a hung fetch). *)

Inductive Settled (A : Type) :=
| Fulfilled (a : A)
| Rejected
| Pending.
Arguments Fulfilled {A} a.
Arguments Rejected {A}.
Arguments Pending {A}.

(** The values the fetch handler's expressions range over: [undefined], a
    [Response], or a promise of one of the two. *)
Inductive Plain :=
| Undefined
| Resp (r : Response).

Inductive JsVal :=
| Val (v : Plain)
| Promise (p : Settled Plain).

(** JavaScript truthiness: [undefined] is falsy, every object is truthy, a
    promise included, whatever it settles to. *)
Definition truthy (v : JsVal) : bool :=
  match v with
  | Val Undefined => false
  | Val (Resp _) => true
  | Promise _ => true
  end.

(** [a || b]: [b] is a thunk, evaluated only when [a] is falsy. *)
Definition js_or (a : JsVal) (b : unit -> JsVal) : JsVal :=
  if truthy a then a else b tt.

(** What an [async] function's promise settles to when its body returns [v]:
    a returned promise is adopted. *)
Definition async_return (v : JsVal) : Settled Plain :=
  match v with
  | Val p => Fulfilled p
  | Promise p => p
  end.

(** What the page receives for the promise given to [event.respondWith]: a
    value that is not a [Response], a rejection and a response of type
    error all surface as a network error. *)
Inductive Delivery :=
| Delivered (r : Response)
| NetworkError
| NeverSettles.

Definition deliver (p : Settled Plain) : Delivery :=
  match p with
  | Fulfilled (Resp r) =>
      if ResponseType_eqb (res_type r) Error then NetworkError else Delivered r
  | Fulfilled Undefined => NetworkError
  | Rejected => NetworkError
  | Pending => NeverSettles
  end.

(** ** Cache: an ordered list of (request URL, response) pairs

    A request matches an entry when their URLs are equal up to the
    fragment.  (The worker stores GET requests only; no response it is
    modelled with carries a Vary header.) *)

Module Cache.

Definition t := list (string * Response).

Definition same_key (a b : string) : bool :=
  String.eqb (Url.without_fragment a) (Url.without_fragment b).

(** [cache.match(key)] *)
Fixpoint lookup (c : t) (key : string) : option Response :=
  match c with
  | [] => None
  | (k, r) :: c' => if same_key k key then Some r else lookup c' key
  end.

Definition remove (c : t) (key : string) : t :=
  filter (fun e => negb (same_key (fst e) key)) c.

(** [cache.put(key, r)]: the entries matching the key are removed and the
    new pair is appended. *)
Definition put (c : t) (key : string) (r : Response) : t :=
  (remove c key ++ [(key, r)])%list.

(** Number of entries that a request for [key] matches. *)
Definition count (c : t) (key : string) : nat :=
  length (filter (fun e => same_key (fst e) key) c).

End Cache.

(** ** CacheStorage: the named caches, in creation order *)

Module CacheStorage.

Definition t := list (string * Cache.t).

Fixpoint find (s : t) (name : string) : option Cache.t :=
  match s with
  | [] => None
  | (n, c) :: s' => if String.eqb n name then Some c else find s' name
  end.

(** The cache called [name], empty when there is none. *)
Definition get (s : t) (name : string) : Cache.t :=
  match find s name with Some c => c | None => [] end.

(** [caches.open(name)] creates the cache when it does not exist. *)
Definition open (s : t) (name : string) : t :=
  match find s name with
  | Some _ => s
  | None => (s ++ [(name, [])])%list
  end.

Fixpoint update (s : t) (name : string) (f : Cache.t -> Cache.t) : t :=
  match s with
  | [] => []
  | (n, c) :: s' =>
      if String.eqb n name then (n, f c) :: s' else (n, c) :: update s' name f
  end.

(** [caches.keys()] *)
Definition keys (s : t) : list string := map fst s.

(** [caches.delete(name)] *)
Definition delete (s : t) (name : string) : t :=
  filter (fun e => negb (String.eqb (fst e) name)) s.

End CacheStorage.

(** ** The worker's world and its effects

    A listener is run to quiescence: the state it leaves, the value its
    promise settles to, and the platform operations it performed, in order.
    A continuation behind an [await] on a promise that never settles does
    not run. *)

Record World := mkWorld {
  caches : CacheStorage.t;
  skipWaitingCalled : bool;   (* self.skipWaiting() *)
  clientsClaimed : bool       (* self.clients.claim() *)
}.

Inductive Op :=
| OpFetch (r : Request)
| OpOpen (name : string)
| OpMatch (name key : string)
| OpPut (name key : string) (r : Response)
| OpPutRefused (name key : string) (r : Response)
| OpKeys
| OpDelete (name : string)
| OpClaim
| OpSkipWaiting.

Definition M (A : Type) : Type := World -> A * World * list Op.

Definition ret {A} (a : A) : M A := fun w => (a, w, []).

Definition bind {A B} (m : M A) (k : A -> M B) : M B :=
  fun w =>
    let '(a, w1, l1) := m w in
    let '(b, w2, l2) := k a w1 in
    (b, w2, (l1 ++ l2)%list).

Declare Scope worker_scope.
Delimit Scope worker_scope with worker.
Notation "x <- c ;; k" := (bind c (fun x => k))
  (at level 61, c at next level, right associativity) : worker_scope.
Notation "c ;;; k" := (bind c (fun _ => k))
  (at level 61, right associativity) : worker_scope.
Open Scope worker_scope.

Fixpoint mapM {A B} (f : A -> M B) (l : list A) : M (list B) :=
  match l with
  | [] => ret []
  | a :: l' => b <- f a ;; bs <- mapM f l' ;; ret (b :: bs)
  end.

Definition value {A} (x : A * World * list Op) : A := fst (fst x).
Definition world {A} (x : A * World * list Op) : World := snd (fst x).
Definition ops {A} (x : A * World * list Op) : list Op := snd x.

Definition set_caches (w : World) (s : CacheStorage.t) : World :=
  {| caches := s; skipWaitingCalled := skipWaitingCalled w; clientsClaimed := clientsClaimed w |}.

(** The network, as seen from the worker: how [fetch] of a request ends. *)
Definition Network := Request -> Settled Response.

(** [fetch(r)] *)
Definition fetch (net : Network) (r : Request) : M (Settled Response) :=
  fun w => (net r, w, [OpFetch r]).

(** [caches.open(name)]: the handle of a cache is its name. *)
Definition caches_open (name : string) : M string :=
  fun w => (name, set_caches w (CacheStorage.open (caches w) name), [OpOpen name]).

(** [cache.match(key)]: the stored response, or [undefined]. *)
Definition cache_match (cache key : string) : M Plain :=
  fun w =>
    (match Cache.lookup (CacheStorage.get (caches w) cache) key with
     | Some r => Resp r
     | None => Undefined
     end, w, [OpMatch cache key]).

(** [cache.put(key, r)], not awaited by its callers.  The platform refuses
    a partial response (status 206): the promise rejects, unobserved, and
    nothing is written.  Failures of the storage itself (quota) are outside
    the model. *)
Definition cache_put (cache key : string) (r : Response) : M unit :=
  fun w =>
    if Nat.eqb (res_status r) 206 then (tt, w, [OpPutRefused cache key r])
    else (tt,
          set_caches w (CacheStorage.update (caches w) cache (fun c => Cache.put c key r)),
          [OpPut cache key r]).

(** [caches.keys()] *)
Definition caches_keys : M (list string) :=
  fun w => (CacheStorage.keys (caches w), w, [OpKeys]).

(** [caches.delete(name)] *)
Definition caches_delete (name : string) : M unit :=
  fun w => (tt, set_caches w (CacheStorage.delete (caches w) name), [OpDelete name]).

(** [self.clients.claim()] *)
Definition clients_claim : M unit :=
  fun w => (tt, {| caches := caches w; skipWaitingCalled := skipWaitingCalled w;
                   clientsClaimed := true |}, [OpClaim]).

(** [self.skipWaiting()] *)
Definition skipWaiting : M unit :=
  fun w => (tt, {| caches := caches w; skipWaitingCalled := true;
                   clientsClaimed := clientsClaimed w |}, [OpSkipWaiting]).

(** *** [cache.addAll(requests)]

    Every request is fetched.  The promise rejects when a fetch rejects or
    resolves with a response that is of type error, has a status outside
    200..299, or has status 206; it stays pending while a fetch does and
    none has failed.  The batch of writes is atomic, and is refused as a
    whole when two of its requests match each other (have the same URL up
    to the fragment). *)

Definition addable (r : Response) : bool :=
  negb (ResponseType_eqb (res_type r) Error) &&
  Nat.leb 200 (res_status r) && Nat.leb (res_status r) 299 &&
  negb (Nat.eqb (res_status r) 206).

Definition fetch_failed (o : Settled Response) : bool :=
  match o with
  | Fulfilled r => negb (addable r)
  | Rejected => true
  | Pending => false
  end.

Definition fetch_pending (o : Settled Response) : bool :=
  match o with
  | Pending => true
  | _ => false
  end.

Fixpoint has_dup (l : list string) : bool :=
  match l with
  | [] => false
  | x :: l' => existsb (String.eqb x) l' || has_dup l'
  end.

(** The batch of a list of requests with the outcomes of their fetches. *)
Fixpoint batch (reqs : list Request) (outs : list (Settled Response))
  : list (string * Response) :=
  match reqs, outs with
  | r :: reqs', Fulfilled res :: outs' => (req_url r, res) :: batch reqs' outs'
  | _ :: reqs', _ :: outs' => batch reqs' outs'
  | _, _ => []
  end.

Definition write_batch (cache : string) (b : list (string * Response)) : M unit :=
  fun w =>
    (tt,
     set_caches w (CacheStorage.update (caches w) cache
                     (fun c => fold_left (fun c e => Cache.put c (fst e) (snd e)) b c)),
     map (fun e => OpPut cache (fst e) (snd e)) b).

Definition cache_addAll (net : Network) (cache : string) (reqs : list Request)
  : M (Settled unit) :=
  outs <- mapM (fetch net) reqs ;;
  if existsb fetch_failed outs then ret Rejected
  else if existsb fetch_pending outs then ret Pending
  else if has_dup (map (fun r => Url.without_fragment (req_url r)) reqs) then ret Rejected
  else write_batch cache (batch reqs outs) ;;; ret (Fulfilled tt).

(** [fetch(req, { mode: 'cors' })] fetches a copy of [req] in mode cors. *)
Definition with_mode (r : Request) (m : RequestMode) : Request :=
  {| req_url := req_url r; req_method := req_method r; req_mode := m;
     req_destination := req_destination r; req_headers := req_headers r;
     req_cache := req_cache r; req_credentials := req_credentials r |}.

(** ** sw.js *)

Section Worker.

(** [self.location]: the URL of the worker's script. *)
Variable location : URL.

Definition CACHE_VERSION : string := "edu-ideas-v1.0.0".
Definition PRECACHE : string := "precache-" ++ CACHE_VERSION.
Definition RUNTIME : string := "runtime-" ++ CACHE_VERSION.

Definition PRECACHE_URLS : list string :=
  [ "/"; "./"; "index.html"; "manifest.json";
    "icon-72x72.png"; "icon-96x96.png"; "icon-128x128.png"; "icon-144x144.png";
    "icon-152x152.png"; "icon-180x180.png"; "icon-192x192.png"; "icon-384x384.png";
    "icon-512x512.png" ].

(** [new Request(url, { cache: 'reload', credentials: 'same-origin' })] *)
Definition reloadReq (url : string) : Request :=
  {| req_url := Url.resolve location url;
     req_method := "GET";
     req_mode := Cors;
     req_destination := "";
     req_headers := [];
     req_cache := Reload;
     req_credentials := CredSameOrigin |}.

(** The [install] listener: the promise given to [event.waitUntil]. *)
Definition on_install (net : Network) : M (Settled unit) :=
  cache <- caches_open PRECACHE ;;
  added <- cache_addAll net cache (map reloadReq PRECACHE_URLS) ;;
  match added with
  | Fulfilled _ => skipWaiting ;;; ret (Fulfilled tt)
  | Rejected => ret Rejected
  | Pending => ret Pending
  end.

(** The [activate] listener: the promise given to [event.waitUntil]. *)
Definition on_activate : M (Settled unit) :=
  clients_claim ;;;
  names <- caches_keys ;;
  mapM (fun name =>
          if negb (String.eqb name PRECACHE) && negb (String.eqb name RUNTIME)
          then caches_delete name
          else ret tt) names ;;;
  ret (Fulfilled tt).

Definition IMAGE_HOST_WHITELIST : list string :=
  [ host location;
    "img.youtube.com";
    "i.ytimg.com";
    "www.google.com";
    "s2.googleusercontent.com";
    "assets.pinterest.com" ].

(** [IMAGE_HOST_WHITELIST.has(h)] *)
Definition whitelist_has (h : string) : bool :=
  existsb (String.eqb h) IMAGE_HOST_WHITELIST.

Definition isNavigationRequest (req : Request) : bool :=
  RequestMode_eqb (req_mode req) Navigate ||
  (String.eqb (req_method req) "GET" &&
   match headers_get (req_headers req) "accept" with
   | Some a => Str.includes a "text/html"
   | None => false
   end).

Definition isImageLike (req : Request) : bool :=
  let url := Url.parse (req_url req) in
  String.eqb (req_destination req) "image" || ImageRegex.test (pathname url).

(** The three [async] bodies given to [event.respondWith], and the one of
    the default branch. *)

Definition respond_navigation (net : Network) (req : Request) : M (Settled Plain) :=
  fetched <- fetch net (reloadReq (req_url req)) ;;
  match fetched with
  | Fulfilled fresh =>
      cache <- caches_open RUNTIME ;;
      cache_put cache (req_url req) fresh ;;;
      ret (Fulfilled (Resp fresh))
  | Rejected =>
      cache <- caches_open PRECACHE ;;
      cached <- cache_match cache (Url.resolve location "index.html") ;;
      ret (async_return (js_or (Val cached) (fun _ => Val (Resp Response_error))))
  | Pending => ret Pending
  end.

(** [fetch(r).then(res => { if (keep(res)) cache.put(req, res.clone()); return res })
    .catch(() => undefined)] *)
Definition revalidate (net : Network) (r : Request) (keep : Response -> bool)
           (cache key : string) : M (Settled Plain) :=
  fetched <- fetch net r ;;
  match fetched with
  | Fulfilled res =>
      (if keep res then cache_put cache key res else ret tt) ;;;
      ret (Fulfilled (Resp res))
  | Rejected => ret (Fulfilled Undefined)
  | Pending => ret Pending
  end.

Definition keep_static (res : Response) : bool :=
  Nat.eqb (res_status res) 200 || ResponseType_eqb (res_type res) OpaqueRedirect.

Definition keep_image (res : Response) : bool :=
  Nat.eqb (res_status res) 200.

Definition respond_static (net : Network) (req : Request) : M (Settled Plain) :=
  cache <- caches_open RUNTIME ;;
  cached <- cache_match cache (req_url req) ;;
  networkFetch <- revalidate net req keep_static cache (req_url req) ;;
  ret (async_return
         (js_or (js_or (Val cached) (fun _ => Promise networkFetch))
                (fun _ => Val (Resp (new_Response "" 504 "Gateway Timeout"))))).

Definition respond_image (net : Network) (req : Request) : M (Settled Plain) :=
  cache <- caches_open RUNTIME ;;
  cached <- cache_match cache (req_url req) ;;
  networkFetch <- revalidate net (with_mode req Cors) keep_image cache (req_url req) ;;
  ret (async_return
         (js_or (js_or (Val cached) (fun _ => Promise networkFetch))
                (fun _ => Val (Resp Response_error)))).

Definition respond_passthrough (net : Network) (req : Request) : M (Settled Plain) :=
  fetched <- fetch net req ;;
  match fetched with
  | Fulfilled res => ret (Fulfilled (Resp res))
  | Rejected =>
      cache <- caches_open RUNTIME ;;
      cached <- cache_match cache (req_url req) ;;
      ret (async_return (js_or (Val cached) (fun _ => Val (Resp Response_error))))
  | Pending => ret Pending
  end.

Definition respondWith (p : M (Settled Plain)) : M (option (Settled Plain)) :=
  r <- p ;; ret (Some r).

(** The [fetch] listener.  [None]: the listener returned without calling
    [event.respondWith], and the browser handles the request itself. *)
Definition on_fetch (net : Network) (req : Request) : M (option (Settled Plain)) :=
  let url := Url.parse (req_url req) in
  if negb (String.eqb (req_method req) "GET") then ret None
  else if isNavigationRequest req then respondWith (respond_navigation net req)
  else if String.eqb (origin url) (origin location) then
    if Str.endsWith (pathname url) "/sw.js" then ret None
    else respondWith (respond_static net req)
  else if isImageLike req && whitelist_has (host url) then
    respondWith (respond_image net req)
  else respondWith (respond_passthrough net req).

(** The branch the [fetch] listener takes: its chain of tests, in the
    listener's order, without the bodies. *)
Inductive Category :=
| NotGet
| Navigation
| WorkerScript
| SameOriginStatic
| ExternalImage
| Passthrough.

Definition classify (req : Request) : Category :=
  let url := Url.parse (req_url req) in
  if negb (String.eqb (req_method req) "GET") then NotGet
  else if isNavigationRequest req then Navigation
  else if String.eqb (origin url) (origin location) then
    if Str.endsWith (pathname url) "/sw.js" then WorkerScript
    else SameOriginStatic
  else if isImageLike req && whitelist_has (host url) then ExternalImage
  else Passthrough.

(** The [message] listener. *)
Definition on_message (data : string) : M unit :=
  if String.eqb data "SKIP_WAITING" then skipWaiting else ret tt.

(** *** Vocabulary of the properties *)

(** The world after [caches.open(RUNTIME)]. *)
Definition opened (w : World) (name : string) : World :=
  set_caches w (CacheStorage.open (caches w) name).

(** The world after a put into an opened cache. *)
Definition stored (w : World) (name key : string) (r : Response) : World :=
  set_caches (opened w name)
    (CacheStorage.update (caches (opened w name)) name (fun c => Cache.put c key r)).

(** [cached || networkFetch || fallback], once [networkFetch] has ended in
    [out]: the fallback is not among the results. *)
Definition swr_result (cached : option Response) (out : Settled Response) : Settled Plain :=
  match cached with
  | Some c => Fulfilled (Resp c)
  | None =>
      match out with
      | Fulfilled res => Fulfilled (Resp res)
      | Rejected => Fulfilled Undefined
      | Pending => Pending
      end
  end.

Definition stale_while_revalidate (cat : Category) : Prop :=
  cat = SameOriginStatic \/ cat = ExternalImage.

(** The request the strategy of a category fetches: the image strategy
    fetches in mode cors. *)
Definition revalidation_request (cat : Category) (req : Request) : Request :=
  match cat with
  | ExternalImage => with_mode req Cors
  | _ => req
  end.

(** The responses after which the strategy of a category writes to the
    runtime store. *)
Definition refreshes (cat : Category) (r : Response) : Prop :=
  match cat with
  | SameOriginStatic => res_status r = 200 \/ res_type r = OpaqueRedirect
  | ExternalImage => res_status r = 200
  | _ => False
  end.

Definition refreshesb (cat : Category) (r : Response) : bool :=
  match cat with
  | SameOriginStatic => keep_static r
  | ExternalImage => keep_image r
  | _ => false
  end.

(** The names of the current generation's two stores. *)
Definition current (name : string) : bool :=
  String.eqb name PRECACHE || String.eqb name RUNTIME.

(** The test of the activate listener's loop. *)
Definition stale (name : string) : bool :=
  negb (String.eqb name PRECACHE) && negb (String.eqb name RUNTIME).

(** The loop of the activate listener over the names it was given. *)
Definition sweep_step (name : string) : M unit :=
  if stale name then caches_delete name else ret tt.

Definition swept (names : list string) (s : CacheStorage.t) : CacheStorage.t :=
  filter (fun e => negb (stale (fst e) && existsb (String.eqb (fst e)) names)) s.

(** The requests of the install listener. *)
Definition manifest_requests : list Request := map reloadReq PRECACHE_URLS.

End Worker.

(** ** Sample inputs *)

Module Sample.

(** A deployment under a project path, and one at the root of its host. *)
Definition site : URL := Url.parse "https://user.github.io/edu-ideabook/sw.js".
Definition root_site : URL := Url.parse "https://app.example/sw.js".

Definition get_request (url : string) : Request :=
  {| req_url := url; req_method := "GET"; req_mode := NoCors; req_destination := "";
     req_headers := [("accept", "text/css")]; req_cache := CacheDefault;
     req_credentials := Include |}.

Definition stylesheet : Request := get_request "https://user.github.io/edu-ideabook/app.css".

Definition page : Request :=
  {| req_url := "https://user.github.io/edu-ideabook/"; req_method := "GET";
     req_mode := Navigate; req_destination := "document";
     req_headers := [("accept", "text/html,application/xhtml+xml")];
     req_cache := CacheDefault; req_credentials := Include |}.

Definition post_form : Request :=
  {| req_url := "https://user.github.io/edu-ideabook/api/save"; req_method := "POST";
     req_mode := Cors; req_destination := ""; req_headers := [];
     req_cache := CacheDefault; req_credentials := CredSameOrigin |}.

Definition worker_script : Request := get_request "https://user.github.io/edu-ideabook/sw.js".

Definition img (url : string) : Request :=
  {| req_url := url; req_method := "GET"; req_mode := NoCors; req_destination := "image";
     req_headers := [("accept", "image/avif,image/webp")]; req_cache := CacheDefault;
     req_credentials := Include |}.

Definition thumbnail : Request := img "https://i.ytimg.com/vi/abc/hqdefault.jpg".
Definition foreign_image : Request := img "https://cdn.example.com/pic.png".

(** A script's [fetch] of a foreign picture that announces it accepts HTML. *)
Definition foreign_image_as_html : Request :=
  {| req_url := "https://cdn.example.com/pic.png"; req_method := "GET"; req_mode := Cors;
     req_destination := ""; req_headers := [("accept", "text/html, image/png")];
     req_cache := CacheDefault; req_credentials := CredSameOrigin |}.

Definition ok (body : string) : Response :=
  {| res_type := Basic; res_code := 200; res_statusText := "OK"; res_body := body |}.

Definition not_found : Response :=
  {| res_type := Basic; res_code := 404; res_statusText := "Not Found"; res_body := "" |}.

Definition offline : Network := fun _ => Rejected.
Definition hung : Network := fun _ => Pending.
Definition serving (body : string) : Network := fun _ => Fulfilled (ok body).
Definition echo : Network := fun r => Fulfilled (ok (req_url r)).

Definition fresh : World :=
  {| caches := []; skipWaitingCalled := false; clientsClaimed := false |}.

Definition with_caches (s : CacheStorage.t) : World :=
  {| caches := s; skipWaitingCalled := false; clientsClaimed := false |}.

(** The stores of three earlier generations beside the current two. *)
Definition after_upgrades : World :=
  with_caches
    [ ("precache-edu-ideas-v0.8.0", [("https://user.github.io/edu-ideabook/", ok "old shell")]);
      ("runtime-edu-ideas-v0.9.0", []);
      (PRECACHE, [("https://user.github.io/edu-ideabook/index.html", ok "shell")]);
      ("runtime-edu-ideas-v0.9.5", [("https://user.github.io/edu-ideabook/app.css", ok "old css")]);
      (RUNTIME, [("https://user.github.io/edu-ideabook/app.css", ok "css")]) ].

(** The shell precached, and an icon present in the precache store only. *)
Definition installed : World :=
  with_caches
    [ (PRECACHE, [ ("https://user.github.io/edu-ideabook/index.html", ok "shell");
                   ("https://user.github.io/edu-ideabook/icon-72x72.png", ok "icon") ]);
      (RUNTIME, [("https://user.github.io/edu-ideabook/app.css", ok "css")]) ].

Definition icon : Request := img "https://user.github.io/edu-ideabook/icon-72x72.png".

End Sample.

(** ** Well-formed stores

    What the platform guarantees of a CacheStorage: the names of its caches
    are distinct, and within a cache no two entries have the same key. *)



(** ** Further sample inputs *)

Module Scenario.

(** A favicon of an allowlisted host, shown in an image element, and the
    same URL fetched by a script: the path has no image extension. *)
Definition favicon : Request := Sample.img "https://www.google.com/s2/favicons?domain=example.org".

Definition favicon_script : Request :=
  Sample.get_request "https://www.google.com/s2/favicons?domain=example.org".

(** A navigation to the worker's own script, typed in the address bar. *)
Definition script_page : Request :=
  {| req_url := "https://user.github.io/edu-ideabook/sw.js"; req_method := "GET";
     req_mode := Navigate; req_destination := "document";
     req_headers := [("accept", "text/html,application/xhtml+xml")];
     req_cache := CacheDefault; req_credentials := Include |}.

Definition server_error : Response :=
  {| res_type := Basic; res_code := 500; res_statusText := "Internal Server Error";
     res_body := "oops" |}.

(** Every manifest entry is served, except the manifest file, which is
    missing. *)
Definition missing_manifest : Network :=
  fun r => if Str.endsWith (req_url r) "manifest.json"
           then Fulfilled Sample.not_found
           else Fulfilled (Sample.ok (req_url r)).

(** Every manifest entry is served, except one icon whose fetch hangs. *)
Definition slow_icon : Network :=
  fun r => if Str.endsWith (req_url r) "icon-512x512.png"
           then Pending
           else Fulfilled (Sample.ok (req_url r)).

(** The stylesheet again, requested with a fragment. *)
Definition stylesheet_top : Request :=
  Sample.get_request "https://user.github.io/edu-ideabook/app.css#top".

(** A partial response, which the Cache refuses to store. *)
Definition partial_content : Response :=
  {| res_type := Basic; res_code := 206; res_statusText := "Partial Content";
     res_body := "part" |}.

End Scenario.

(** * Properties *)

Open Scope list_scope.

(** ** Cache *)

Module CacheFacts.

Lemma same_key_refl (k : string) : Cache.same_key k k = true.
Proof. apply String.eqb_refl. Qed.

Lemma same_key_true (a b : string) :
  Cache.same_key a b = true <-> Url.without_fragment a = Url.without_fragment b.
Proof. apply String.eqb_eq. Qed.

(** Matching keys match the same requests. *)
Lemma same_key_congr (a b k : string) :
  Cache.same_key a b = true -> Cache.same_key a k = Cache.same_key b k.
Proof. unfold Cache.same_key. intros H. apply String.eqb_eq in H. now rewrite H. Qed.

Lemma lookup_app (a b : Cache.t) (k : string) :
  Cache.lookup (a ++ b) k =
  match Cache.lookup a k with Some r => Some r | None => Cache.lookup b k end.
Proof.
  induction a as [|[k' r'] a IH]; simpl; [reflexivity|].
  destruct (Cache.same_key k' k); [reflexivity | exact IH].
Qed.

Lemma lookup_remove_same (c : Cache.t) (k : string) :
  Cache.lookup (Cache.remove c k) k = None.
Proof.
  induction c as [|[k' r'] c IH]; simpl; [reflexivity|].
  destruct (Cache.same_key k' k) eqn:E; simpl; [exact IH|].
  rewrite E. exact IH.
Qed.

Lemma lookup_remove_other (c : Cache.t) (k k' : string) :
  Cache.same_key k k' = false ->
  Cache.lookup (Cache.remove c k) k' = Cache.lookup c k'.
Proof.
  intros Hne. induction c as [|[k0 r0] c IH]; simpl; [reflexivity|].
  destruct (Cache.same_key k0 k) eqn:E; simpl.
  - rewrite (same_key_congr k0 k k' E), Hne. exact IH.
  - destruct (Cache.same_key k0 k'); [reflexivity | exact IH].
Qed.

Lemma lookup_put_same (c : Cache.t) (k : string) (r : Response) :
  Cache.lookup (Cache.put c k r) k = Some r.
Proof.
  unfold Cache.put. rewrite lookup_app, lookup_remove_same. simpl.
  now rewrite same_key_refl.
Qed.

Lemma lookup_put_other (c : Cache.t) (k k' : string) (r : Response) :
  Cache.same_key k k' = false ->
  Cache.lookup (Cache.put c k r) k' = Cache.lookup c k'.
Proof.
  intros Hne. unfold Cache.put. rewrite lookup_app, lookup_remove_other by exact Hne.
  destruct (Cache.lookup c k'); [reflexivity|]. simpl. now rewrite Hne.
Qed.

Lemma count_app (a b : Cache.t) (k : string) :
  Cache.count (a ++ b) k = Cache.count a k + Cache.count b k.
Proof. unfold Cache.count. now rewrite filter_app, length_app. Qed.

Lemma count_remove_same (c : Cache.t) (k : string) :
  Cache.count (Cache.remove c k) k = 0.
Proof.
  unfold Cache.count, Cache.remove.
  induction c as [|[k' r'] c IH]; simpl; [reflexivity|].
  destruct (Cache.same_key k' k) eqn:E; simpl; [exact IH|].
  rewrite E. exact IH.
Qed.

(** After a put the key has exactly one entry, whatever was there. *)
Lemma count_put_same (c : Cache.t) (k : string) (r : Response) :
  Cache.count (Cache.put c k r) k = 1.
Proof.
  unfold Cache.put. rewrite count_app, count_remove_same.
  unfold Cache.count. simpl. now rewrite same_key_refl.
Qed.

(** A batch of puts: a key that the batch holds once ends with the
    batch's response. *)
Lemma lookup_batch_other (b : list (string * Response)) (c : Cache.t) (k : string) :
  (forall e, In e b -> Cache.same_key (fst e) k = false) ->
  Cache.lookup (fold_left (fun c e => Cache.put c (fst e) (snd e)) b c) k =
  Cache.lookup c k.
Proof.
  revert c. induction b as [|[k0 r0] b IH]; intros c Hnin; simpl; [reflexivity|].
  rewrite IH by (intros e He; apply Hnin; now right).
  apply lookup_put_other. apply (Hnin (k0, r0)). now left.
Qed.

Lemma lookup_batch (b : list (string * Response)) (c : Cache.t) (k : string) (r : Response) :
  NoDup (map (fun e => Url.without_fragment (fst e)) b) -> In (k, r) b ->
  Cache.lookup (fold_left (fun c e => Cache.put c (fst e) (snd e)) b c) k = Some r.
Proof.
  revert c. induction b as [|[k0 r0] b IH]; intros c Hnd Hin; simpl in *; [contradiction|].
  inversion Hnd as [|? ? Hnin Hnd']; subst.
  destruct Hin as [Heq | Hin].
  - inversion Heq; subst. rewrite lookup_batch_other; [apply lookup_put_same|].
    intros e He. destruct (Cache.same_key (fst e) k) eqn:E; [|reflexivity].
    exfalso. apply Hnin. apply same_key_true in E. rewrite <- E.
    now apply (in_map (fun e => Url.without_fragment (fst e))).
  - apply IH; assumption.
Qed.

End CacheFacts.

(** ** CacheStorage *)

Module StorageFacts.

Lemma find_app (s s' : CacheStorage.t) (n : string) :
  CacheStorage.find (s ++ s') n =
  match CacheStorage.find s n with Some c => Some c | None => CacheStorage.find s' n end.
Proof.
  induction s as [|[m c] s IH]; simpl; [reflexivity|].
  destruct (String.eqb m n); [reflexivity | exact IH].
Qed.

(** Opening a cache changes the content of none. *)
Lemma get_open (s : CacheStorage.t) (n m : string) :
  CacheStorage.get (CacheStorage.open s n) m = CacheStorage.get s m.
Proof.
  unfold CacheStorage.get, CacheStorage.open.
  destruct (CacheStorage.find s n) eqn:E; [reflexivity|].
  rewrite find_app. destruct (CacheStorage.find s m); [reflexivity|].
  simpl. now destruct (String.eqb n m).
Qed.

Lemma find_open_same (s : CacheStorage.t) (n : string) :
  CacheStorage.find (CacheStorage.open s n) n = Some (CacheStorage.get s n).
Proof.
  unfold CacheStorage.get, CacheStorage.open.
  destruct (CacheStorage.find s n) eqn:E; [exact E|].
  rewrite find_app, E. simpl. now rewrite String.eqb_refl.
Qed.

Lemma open_present (s : CacheStorage.t) (n : string) (c : Cache.t) :
  CacheStorage.find s n = Some c -> CacheStorage.open s n = s.
Proof. unfold CacheStorage.open. now intros ->. Qed.

Lemma find_update_same (s : CacheStorage.t) (n : string) (f : Cache.t -> Cache.t) (c : Cache.t) :
  CacheStorage.find s n = Some c ->
  CacheStorage.find (CacheStorage.update s n f) n = Some (f c).
Proof.
  induction s as [|[m c'] s IH]; simpl; [discriminate|].
  destruct (String.eqb m n) eqn:E; simpl; rewrite E.
  - now intros [= ->].
  - exact IH.
Qed.

Lemma find_update_other (s : CacheStorage.t) (n m : string) (f : Cache.t -> Cache.t) :
  n <> m ->
  CacheStorage.find (CacheStorage.update s n f) m = CacheStorage.find s m.
Proof.
  intros Hne. induction s as [|[k c] s IH]; simpl; [reflexivity|].
  destruct (String.eqb k n) eqn:E; simpl.
  - apply String.eqb_eq in E. subst k.
    destruct (String.eqb n m) eqn:E'; [apply String.eqb_eq in E'; contradiction | reflexivity].
  - destruct (String.eqb k m); [reflexivity | exact IH].
Qed.

Lemma get_update_open (s : CacheStorage.t) (n : string) (f : Cache.t -> Cache.t) :
  CacheStorage.get (CacheStorage.update (CacheStorage.open s n) n f) n =
  f (CacheStorage.get s n).
Proof.
  unfold CacheStorage.get at 1.
  now rewrite (find_update_same _ _ _ _ (find_open_same s n)).
Qed.

Lemma get_update_other (s : CacheStorage.t) (n m : string) (f : Cache.t -> Cache.t) :
  n <> m ->
  CacheStorage.get (CacheStorage.update s n f) m = CacheStorage.get s m.
Proof. intros Hne. unfold CacheStorage.get. now rewrite find_update_other. Qed.

Lemma find_filter (p : string -> bool) (s : CacheStorage.t) (n : string) :
  CacheStorage.find (filter (fun e => p (fst e)) s) n =
  if p n then CacheStorage.find s n else None.
Proof.
  induction s as [|[k c] s IH]; simpl; [now destruct (p n)|].
  destruct (String.eqb k n) eqn:E.
  - apply String.eqb_eq in E. subst k.
    destruct (p n) eqn:Ep; simpl.
    + now rewrite String.eqb_refl.
    + exact IH.
  - destruct (p k); simpl; [rewrite E|]; exact IH.
Qed.

End StorageFacts.

(** ** The fetch listener, branch by branch *)

Section Listener.

Variable location : URL.

Lemma world_of {A} (a : A) (w : World) (l : list Op) : world (a, w, l) = w.
Proof. reflexivity. Qed.

Lemma PRECACHE_neq_RUNTIME : PRECACHE <> RUNTIME.
Proof. discriminate. Qed.

(** The listener is its classifier followed by the strategy of the
    category. *)
Lemma on_fetch_by_category (net : Network) (req : Request) :
  on_fetch location net req =
  match classify location req with
  | NotGet | WorkerScript => ret None
  | Navigation => respondWith (respond_navigation location net req)
  | SameOriginStatic => respondWith (respond_static net req)
  | ExternalImage => respondWith (respond_image net req)
  | Passthrough => respondWith (respond_passthrough net req)
  end.
Proof.
  unfold on_fetch, classify.
  destruct (negb (String.eqb (req_method req) "GET")); [reflexivity|].
  destruct (isNavigationRequest req); [reflexivity|].
  destruct (String.eqb (origin (Url.parse (req_url req))) (origin location)).
  - destruct (Str.endsWith (pathname (Url.parse (req_url req))) "/sw.js"); reflexivity.
  - destruct (isImageLike req && whitelist_has location (host (Url.parse (req_url req))));
      reflexivity.
Qed.

(** The responses the two revalidations keep are responses the Cache
    accepts: an opaqueredirect response shows status 0. *)
Lemma keep_static_accepted (res : Response) :
  keep_static res = true -> Nat.eqb (res_status res) 206 = false.
Proof.
  unfold keep_static, res_status.
  destruct (res_type res); simpl; try reflexivity;
    rewrite orb_false_r; intros H; apply Nat.eqb_eq in H; now rewrite H.
Qed.

Lemma keep_image_accepted (res : Response) :
  keep_image res = true -> Nat.eqb (res_status res) 206 = false.
Proof. unfold keep_image. intros H. apply Nat.eqb_eq in H. now rewrite H. Qed.

Lemma respond_static_run (net : Network) (req : Request) (w : World) :
  respond_static net req w =
  let key := req_url req in
  let cached := Cache.lookup (CacheStorage.get (caches w) RUNTIME) key in
  let seen := [OpOpen RUNTIME; OpMatch RUNTIME key; OpFetch req] in
  match net req with
  | Fulfilled res =>
      if keep_static res
      then (swr_result cached (net req), stored w RUNTIME key res,
            seen ++ [OpPut RUNTIME key res])
      else (swr_result cached (net req), opened w RUNTIME, seen)
  | _ => (swr_result cached (net req), opened w RUNTIME, seen)
  end.
Proof.
  unfold respond_static, revalidate, bind, caches_open, cache_match, fetch, ret.
  cbv zeta. cbn [caches set_caches].
  rewrite StorageFacts.get_open.
  destruct (net req) as [res| |]; cbn -[RUNTIME].
  - destruct (keep_static res) eqn:Ek;
      [unfold cache_put; rewrite (keep_static_accepted res Ek)|]; cbn -[RUNTIME];
      destruct (Cache.lookup (CacheStorage.get (caches w) RUNTIME) (req_url req));
      reflexivity.
  - destruct (Cache.lookup (CacheStorage.get (caches w) RUNTIME) (req_url req));
      reflexivity.
  - destruct (Cache.lookup (CacheStorage.get (caches w) RUNTIME) (req_url req));
      reflexivity.
Qed.

Lemma respond_image_run (net : Network) (req : Request) (w : World) :
  respond_image net req w =
  let key := req_url req in
  let cached := Cache.lookup (CacheStorage.get (caches w) RUNTIME) key in
  let seen := [OpOpen RUNTIME; OpMatch RUNTIME key; OpFetch (with_mode req Cors)] in
  match net (with_mode req Cors) with
  | Fulfilled res =>
      if keep_image res
      then (swr_result cached (net (with_mode req Cors)), stored w RUNTIME key res,
            seen ++ [OpPut RUNTIME key res])
      else (swr_result cached (net (with_mode req Cors)), opened w RUNTIME, seen)
  | _ => (swr_result cached (net (with_mode req Cors)), opened w RUNTIME, seen)
  end.
Proof.
  unfold respond_image, revalidate, bind, caches_open, cache_match, fetch, ret.
  cbv zeta. cbn [caches set_caches].
  rewrite StorageFacts.get_open.
  destruct (net (with_mode req Cors)) as [res| |]; cbn -[RUNTIME].
  - destruct (keep_image res) eqn:Ek;
      [unfold cache_put; rewrite (keep_image_accepted res Ek)|]; cbn -[RUNTIME];
      destruct (Cache.lookup (CacheStorage.get (caches w) RUNTIME) (req_url req));
      reflexivity.
  - destruct (Cache.lookup (CacheStorage.get (caches w) RUNTIME) (req_url req));
      reflexivity.
  - destruct (Cache.lookup (CacheStorage.get (caches w) RUNTIME) (req_url req));
      reflexivity.
Qed.

Lemma respond_passthrough_run (net : Network) (req : Request) (w : World) :
  respond_passthrough net req w =
  match net req with
  | Fulfilled res => (Fulfilled (Resp res), w, [OpFetch req])
  | Rejected =>
      (Fulfilled (Resp (match Cache.lookup (CacheStorage.get (caches w) RUNTIME) (req_url req) with
                        | Some c => c
                        | None => Response_error
                        end)),
       opened w RUNTIME,
       [OpFetch req; OpOpen RUNTIME; OpMatch RUNTIME (req_url req)])
  | Pending => (Pending, w, [OpFetch req])
  end.
Proof.
  unfold respond_passthrough, bind, caches_open, cache_match, fetch, ret.
  destruct (net req) as [res| |]; cbn -[RUNTIME]; try reflexivity.
  rewrite StorageFacts.get_open.
  destruct (Cache.lookup (CacheStorage.get (caches w) RUNTIME) (req_url req)); reflexivity.
Qed.

Lemma respond_navigation_run (net : Network) (req : Request) (w : World) :
  respond_navigation location net req w =
  let reload := reloadReq location (req_url req) in
  match net reload with
  | Fulfilled fresh =>
      if Nat.eqb (res_status fresh) 206
      then (Fulfilled (Resp fresh), opened w RUNTIME,
            [OpFetch reload; OpOpen RUNTIME; OpPutRefused RUNTIME (req_url req) fresh])
      else (Fulfilled (Resp fresh), stored w RUNTIME (req_url req) fresh,
            [OpFetch reload; OpOpen RUNTIME; OpPut RUNTIME (req_url req) fresh])
  | Rejected =>
      let shell := Url.resolve location "index.html" in
      (Fulfilled (Resp (match Cache.lookup (CacheStorage.get (caches w) PRECACHE) shell with
                        | Some doc => doc
                        | None => Response_error
                        end)),
       opened w PRECACHE,
       [OpFetch reload; OpOpen PRECACHE; OpMatch PRECACHE shell])
  | Pending => (Pending, w, [OpFetch reload])
  end.
Proof.
  unfold respond_navigation, bind, caches_open, cache_match, cache_put, fetch, ret.
  cbv zeta.
  destruct (net (reloadReq location (req_url req))) as [fresh| |].
  - destruct (Nat.eqb (res_status fresh) 206); reflexivity.
  - cbn -[RUNTIME PRECACHE Url.resolve]. rewrite StorageFacts.get_open.
    destruct (Cache.lookup (CacheStorage.get (caches w) PRECACHE)
                (Url.resolve location "index.html")); reflexivity.
  - reflexivity.
Qed.

Lemma respondWith_run (p : M (Settled Plain)) (w : World) :
  respondWith p w = (Some (value (p w)), world (p w), ops (p w)).
Proof.
  unfold respondWith, bind, ret, value, world, ops.
  destruct (p w) as [[a w'] l]. simpl. now rewrite app_nil_r.
Qed.

End Listener.

(** ** The fetch listener: what each category is answered with *)

Section FetchProperties.

Variable location : URL.

(** C8.  A request whose method is not GET: the listener returns without
    calling [respondWith]; no platform operation is performed (no cache is
    opened, read or written, nothing is fetched) and the world is left as
    it was.  The browser's own networking handles the request. *)
Theorem non_get_not_intercepted (net : Network) (req : Request) (w : World) :
  String.eqb (req_method req) "GET" = false ->
  on_fetch location net req w = (None, w, []).
Proof.
  intros Hm. unfold on_fetch. rewrite Hm. reflexivity.
Qed.

(** C10.  A GET request to the worker's own origin whose path ends in
    "/sw.js" and that is not a navigation: the listener returns without
    calling [respondWith] (it is not given the passthrough strategy), and
    no cache is read or written for it. *)
Theorem worker_script_not_intercepted (net : Network) (req : Request) (w : World) :
  String.eqb (req_method req) "GET" = true ->
  isNavigationRequest req = false ->
  origin (Url.parse (req_url req)) = origin location ->
  Str.endsWith (pathname (Url.parse (req_url req))) "/sw.js" = true ->
  classify location req = WorkerScript /\
  on_fetch location net req w = (None, w, []).
Proof.
  intros Hm Hn Ho He. unfold classify, on_fetch.
  rewrite Hm, Hn, Ho, String.eqb_refl, He. split; reflexivity.
Qed.

(** C2.  A navigation request whose network fetch rejects: when
    "index.html" is present in the precache store the response is that
    stored document (so its body is the stored body); when it is absent
    the response is [Response.error()]. *)
Theorem offline_navigation_serves_shell (net : Network) (req : Request) (w : World) :
  classify location req = Navigation ->
  net (reloadReq location (req_url req)) = Rejected ->
  let shell := Cache.lookup (CacheStorage.get (caches w) PRECACHE)
                 (Url.resolve location "index.html") in
  let run := on_fetch location net req w in
  (forall doc, shell = Some doc -> value run = Some (Fulfilled (Resp doc))) /\
  (shell = None -> value run = Some (Fulfilled (Resp Response_error))).
Proof.
  intros Hc Hnet shell run. subst shell run.
  rewrite on_fetch_by_category, Hc, respondWith_run, respond_navigation_run.
  cbv zeta. rewrite Hnet. unfold value. cbn [fst].
  split.
  - intros doc ->. reflexivity.
  - intros ->. reflexivity.
Qed.

(** Which requests are navigations, in the listener's own terms. *)
Lemma classify_navigation (req : Request) :
  classify location req = Navigation <->
  String.eqb (req_method req) "GET" = true /\ isNavigationRequest req = true.
Proof.
  unfold classify.
  destruct (String.eqb (req_method req) "GET"); simpl.
  - destruct (isNavigationRequest req); [tauto|].
    destruct (String.eqb _ _); [destruct (Str.endsWith _ _)|destruct (_ && _)];
      split; try discriminate; intros [_ ?]; discriminate.
  - split; [discriminate | intros [? _]; discriminate].
Qed.

Lemma classify_static (req : Request) :
  classify location req = SameOriginStatic <->
  String.eqb (req_method req) "GET" = true /\
  isNavigationRequest req = false /\
  String.eqb (origin (Url.parse (req_url req))) (origin location) = true /\
  Str.endsWith (pathname (Url.parse (req_url req))) "/sw.js" = false.
Proof.
  unfold classify.
  destruct (String.eqb (req_method req) "GET"); simpl;
    [|split; [discriminate | intros [? _]; discriminate]].
  destruct (isNavigationRequest req);
    [split; [discriminate | intros (_ & ? & _); discriminate]|].
  destruct (String.eqb _ _).
  - destruct (Str.endsWith _ _);
      [split; [discriminate | intros (_ & _ & _ & ?); discriminate] | tauto].
  - destruct (_ && _); split; try discriminate; intros (_ & _ & ? & _); discriminate.
Qed.

Lemma classify_image (req : Request) :
  classify location req = ExternalImage <->
  String.eqb (req_method req) "GET" = true /\
  isNavigationRequest req = false /\
  String.eqb (origin (Url.parse (req_url req))) (origin location) = false /\
  isImageLike req = true /\
  whitelist_has location (host (Url.parse (req_url req))) = true.
Proof.
  unfold classify.
  destruct (String.eqb (req_method req) "GET"); simpl;
    [|split; [discriminate | intros [? _]; discriminate]].
  destruct (isNavigationRequest req);
    [split; [discriminate | intros (_ & ? & _); discriminate]|].
  destruct (String.eqb _ _).
  - destruct (Str.endsWith _ _); split; try discriminate;
      intros (_ & _ & ? & _); discriminate.
  - destruct (isImageLike req); destruct (whitelist_has _ _); simpl;
      try tauto; split; try discriminate.
    + intros (_ & _ & _ & _ & ?); discriminate.
    + intros (_ & _ & _ & ? & _); discriminate.
    + intros (_ & _ & _ & ? & _); discriminate.
Qed.

Lemma refreshes_spec (cat : Category) (r : Response) :
  refreshesb cat r = true <-> refreshes cat r.
Proof.
  destruct cat; simpl; try (split; [discriminate | contradiction]).
  - unfold keep_static. rewrite orb_true_iff, Nat.eqb_eq.
    destruct (res_type r); simpl; intuition discriminate.
  - unfold keep_image. apply Nat.eqb_eq.
Qed.

(** One run of either stale-while-revalidate strategy. *)
Lemma swr_run (net : Network) (req : Request) (w : World) :
  stale_while_revalidate (classify location req) ->
  let cat := classify location req in
  let key := req_url req in
  let out := net (revalidation_request cat req) in
  let cached := Cache.lookup (CacheStorage.get (caches w) RUNTIME) key in
  let seen := [OpOpen RUNTIME; OpMatch RUNTIME key; OpFetch (revalidation_request cat req)] in
  on_fetch location net req w =
  match out with
  | Fulfilled res =>
      if refreshesb cat res
      then (Some (swr_result cached out), stored w RUNTIME key res,
            seen ++ [OpPut RUNTIME key res])
      else (Some (swr_result cached out), opened w RUNTIME, seen)
  | _ => (Some (swr_result cached out), opened w RUNTIME, seen)
  end.
Proof.
  intros Hcat. cbv zeta. rewrite on_fetch_by_category.
  destruct Hcat as [Hc | Hc]; rewrite Hc, respondWith_run;
    cbn [revalidation_request refreshesb].
  - rewrite respond_static_run. cbv zeta.
    destruct (net req) as [res| |]; [destruct (keep_static res)| |]; reflexivity.
  - rewrite respond_image_run. cbv zeta.
    destruct (net (with_mode req Cors)) as [res| |]; [destruct (keep_image res)| |];
      reflexivity.
Qed.

Lemma opened_present (w : World) (name key : string) (c : Response) :
  Cache.lookup (CacheStorage.get (caches w) name) key = Some c ->
  opened w name = w.
Proof.
  unfold opened, CacheStorage.get. intros H.
  destruct (CacheStorage.find (caches w) name) eqn:E; [|discriminate].
  rewrite (StorageFacts.open_present _ _ _ E). now destruct w.
Qed.

Lemma stored_runtime (w : World) (name key : string) (r : Response) :
  CacheStorage.get (caches (stored w name key r)) name =
  Cache.put (CacheStorage.get (caches w) name) key r.
Proof. unfold stored, opened. cbn [caches set_caches]. apply StorageFacts.get_update_open. Qed.

Lemma opened_get (w : World) (name other : string) :
  CacheStorage.get (caches (opened w name)) other = CacheStorage.get (caches w) other.
Proof. unfold opened. cbn [caches set_caches]. apply StorageFacts.get_open. Qed.

(** A miss with the network down: the promise given to [respondWith]
    is [networkFetch] itself (a promise is truthy), and it fulfils with
    [undefined].  The third operand of the disjunction is not evaluated. *)
Lemma swr_miss_offline (net : Network) (req : Request) (w : World) :
  stale_while_revalidate (classify location req) ->
  Cache.lookup (CacheStorage.get (caches w) RUNTIME) (req_url req) = None ->
  net (revalidation_request (classify location req) req) = Rejected ->
  value (on_fetch location net req w) = Some (Fulfilled Undefined).
Proof.
  intros Hcat Hmiss Hnet. rewrite (swr_run net req w Hcat). cbv zeta.
  rewrite Hnet, Hmiss. reflexivity.
Qed.

(** C5.  A same-origin static request (or an allowlisted external image)
    with an entry in the runtime store: the response is that entry,
    whatever the network fetch does, also when it never settles; the entry
    is overwritten with the fetched response when the fetch resolves with
    status 200 or type opaqueredirect (for an external image: with status
    200), and otherwise nothing is written and the world is unchanged. *)
Theorem swr_hit_served_and_refreshed (net : Network) (req : Request) (w : World)
        (c : Response) :
  stale_while_revalidate (classify location req) ->
  Cache.lookup (CacheStorage.get (caches w) RUNTIME) (req_url req) = Some c ->
  let cat := classify location req in
  let out := net (revalidation_request cat req) in
  let run := on_fetch location net req w in
  value run = Some (Fulfilled (Resp c)) /\
  (forall r, out = Fulfilled r -> refreshes cat r ->
             Cache.lookup (CacheStorage.get (caches (world run)) RUNTIME) (req_url req) = Some r /\
             In (OpPut RUNTIME (req_url req) r) (ops run)) /\
  ((forall r, out = Fulfilled r -> ~ refreshes cat r) ->
   world run = w /\ forall n k r, ~ In (OpPut n k r) (ops run)).
Proof.
  intros Hcat Hhit cat out run. subst run.
  rewrite (swr_run net req w Hcat). cbv zeta. fold cat. fold out.
  rewrite Hhit, (opened_present _ _ _ _ Hhit).
  split; [|split].
  - destruct out as [res| |]; [destruct (refreshesb cat res)| |]; reflexivity.
  - intros r Hout Hr. rewrite Hout.
    apply refreshes_spec in Hr. rewrite Hr. unfold world, ops. cbn [fst snd].
    rewrite stored_runtime, CacheFacts.lookup_put_same.
    split; [reflexivity|]. apply in_or_app. right. now left.
  - intros Hno. destruct out as [res| |] eqn:Eout.
    + destruct (refreshesb cat res) eqn:Er.
      * exfalso. apply (Hno res eq_refl). now apply refreshes_spec.
      * split; [reflexivity|]. intros n k r [H|[H|[H|[]]]]; discriminate.
    + split; [reflexivity|]. intros n k r [H|[H|[H|[]]]]; discriminate.
    + split; [reflexivity|]. intros n k r [H|[H|[H|[]]]]; discriminate.
Qed.

(** C6.  The same stale-while-revalidate request handled twice in
    sequence, both fetches resolving with a response the strategy stores:
    the runtime store ends with exactly one entry under the request's key,
    and it is the second response. *)
Theorem swr_twice_one_entry (net1 net2 : Network) (req : Request) (w : World)
        (r1 r2 : Response) :
  stale_while_revalidate (classify location req) ->
  let cat := classify location req in
  net1 (revalidation_request cat req) = Fulfilled r1 -> refreshes cat r1 ->
  net2 (revalidation_request cat req) = Fulfilled r2 -> refreshes cat r2 ->
  let w1 := world (on_fetch location net1 req w) in
  let w2 := world (on_fetch location net2 req w1) in
  Cache.count (CacheStorage.get (caches w2) RUNTIME) (req_url req) = 1 /\
  Cache.lookup (CacheStorage.get (caches w2) RUNTIME) (req_url req) = Some r2.
Proof.
  intros Hcat cat H1 Hr1 H2 Hr2 w1 w2. subst w2.
  rewrite (swr_run net2 req w1 Hcat). cbv zeta. fold cat.
  rewrite H2. apply refreshes_spec in Hr2. rewrite Hr2.
  rewrite !world_of, stored_runtime.
  split; [apply CacheFacts.count_put_same | apply CacheFacts.lookup_put_same].
Qed.

(** C7, as amended.  A GET request that is not a navigation, is
    image-shaped, goes to another origin and to a host outside the
    allowlist: it is not given the image strategy but the passthrough one,
    and handling it writes no entry to any cache. *)
Theorem unlisted_image_passes_through (net : Network) (req : Request) (w : World) :
  String.eqb (req_method req) "GET" = true ->
  isNavigationRequest req = false ->
  isImageLike req = true ->
  String.eqb (origin (Url.parse (req_url req))) (origin location) = false ->
  whitelist_has location (host (Url.parse (req_url req))) = false ->
  let run := on_fetch location net req w in
  classify location req = Passthrough /\
  on_fetch location net req = respondWith (respond_passthrough net req) /\
  (forall n k r, ~ In (OpPut n k r) (ops run)) /\
  (forall n, CacheStorage.get (caches (world run)) n = CacheStorage.get (caches w) n).
Proof.
  intros Hm Hn Hi Ho Hw run.
  assert (Hc : classify location req = Passthrough).
  { unfold classify. now rewrite Hm, Hn, Ho, Hi, Hw. }
  subst run. rewrite on_fetch_by_category, Hc.
  split; [reflexivity|]. split; [reflexivity|].
  rewrite respondWith_run, respond_passthrough_run. unfold ops, world.
  destruct (net req) as [res| |]; cbn [fst snd]; split;
    try (intros n k r [H|[H|[H|[]]]]; discriminate);
    try (intros n k r [H|[]]; discriminate);
    try reflexivity.
  intros n. apply opened_get.
Qed.

(** C9.  The cache lookups of the fetch listener: the precache store is
    read under the key of "index.html" only, and by the navigation
    strategy only; every other lookup is a lookup of the request in the
    runtime store.  So what a request that is not a navigation is answered
    with depends on the runtime store alone, and with the network down a
    resource that the runtime store lacks is not served, whatever the
    precache store holds. *)
Theorem precache_read_for_shell_only (net : Network) (req : Request) (w : World) :
  let cat := classify location req in
  let run := on_fetch location net req w in
  (forall name key, In (OpMatch name key) (ops run) ->
      (name = PRECACHE /\ key = Url.resolve location "index.html" /\ cat = Navigation) \/
      (name = RUNTIME /\ key = req_url req /\ cat <> Navigation)) /\
  (forall w', cat <> Navigation ->
      CacheStorage.get (caches w') RUNTIME = CacheStorage.get (caches w) RUNTIME ->
      value (on_fetch location net req w') = value run) /\
  (cat <> Navigation ->
   Cache.lookup (CacheStorage.get (caches w) RUNTIME) (req_url req) = None ->
   net (revalidation_request cat req) = Rejected ->
   value run = None \/
   value run = Some (Fulfilled Undefined) \/
   value run = Some (Fulfilled (Resp Response_error))).
Proof.
  intros cat run. subst run.
  assert (Hswr : forall w0,
             stale_while_revalidate cat ->
             value (on_fetch location net req w0) =
             Some (swr_result (Cache.lookup (CacheStorage.get (caches w0) RUNTIME) (req_url req))
                              (net (revalidation_request cat req))) /\
             forall name key, In (OpMatch name key) (ops (on_fetch location net req w0)) ->
                              name = RUNTIME /\ key = req_url req).
  { intros w0 Hcat. rewrite (swr_run net req w0 Hcat). cbv zeta. fold cat.
    destruct (net (revalidation_request cat req)) as [res| |];
      [destruct (refreshesb cat res)| |]; (split; [reflexivity|]);
      unfold ops; cbn [snd app]; intros name key Hin;
      repeat (destruct Hin as [Hin|Hin]; try discriminate; try contradiction);
      inversion Hin; split; reflexivity. }
  assert (Hcases : cat = NotGet \/ cat = WorkerScript \/ cat = Navigation \/
                   stale_while_revalidate cat \/ cat = Passthrough).
  { unfold stale_while_revalidate. destruct cat; tauto. }
  destruct Hcases as [Hc|[Hc|[Hc|[Hc|Hc]]]].
  - (* not GET *)
    assert (Hrun : forall w0, on_fetch location net req w0 = (None, w0, [])).
    { intros w0. rewrite on_fetch_by_category. fold cat. now rewrite Hc. }
    rewrite Hrun. split; [intros ? ? []|]. split; [intros; now rewrite Hrun|].
    intros; now left.
  - (* the worker's script *)
    assert (Hrun : forall w0, on_fetch location net req w0 = (None, w0, [])).
    { intros w0. rewrite on_fetch_by_category. fold cat. now rewrite Hc. }
    rewrite Hrun. split; [intros ? ? []|]. split; [intros; now rewrite Hrun|].
    intros; now left.
  - (* navigation *)
    split; [|split; intros; congruence].
    rewrite on_fetch_by_category. fold cat. rewrite Hc, respondWith_run, respond_navigation_run.
    cbv zeta. intros name key.
    destruct (net (reloadReq location (req_url req))) as [fresh| |];
      [destruct (Nat.eqb (res_status fresh) 206)| |]; unfold ops; cbn [snd]; intros Hin;
      repeat (destruct Hin as [Hin|Hin]; try discriminate; try contradiction).
    inversion Hin. left. repeat split.
  - (* stale-while-revalidate *)
    assert (Hnav : cat <> Navigation) by (destruct Hc as [Hc|Hc]; rewrite Hc; discriminate).
    split; [|split].
    + intros name key Hin. right.
      destruct (proj2 (Hswr w Hc) name key Hin) as [-> ->]. now repeat split.
    + intros w' _ Hsame. rewrite (proj1 (Hswr w' Hc)), (proj1 (Hswr w Hc)), Hsame.
      reflexivity.
    + intros _ Hmiss Hnet. rewrite (proj1 (Hswr w Hc)), Hmiss, Hnet. right. now left.
  - (* passthrough *)
    assert (Hrun : forall w0, on_fetch location net req w0 =
                              respondWith (respond_passthrough net req) w0).
    { intros w0. rewrite on_fetch_by_category. fold cat. now rewrite Hc. }
    assert (Hreq : revalidation_request cat req = req) by now rewrite Hc.
    rewrite Hreq. split; [|split].
    + rewrite Hrun, respondWith_run, respond_passthrough_run. intros name key.
      destruct (net req); unfold ops; cbn [snd]; intros Hin;
        repeat (destruct Hin as [Hin|Hin]; try discriminate; try contradiction).
      inversion Hin. right. repeat split. rewrite Hc. discriminate.
    + intros w' _ Hsame. rewrite !Hrun, !respondWith_run, !respond_passthrough_run, Hsame.
      now destruct (net req).
    + intros _ Hmiss Hnet. rewrite Hrun, respondWith_run, respond_passthrough_run, Hnet, Hmiss.
      right. now right.
Qed.

End FetchProperties.

(** ** The lifecycle listeners *)

Section Lifecycle.

Lemma current_spec (name : string) :
  current name = true <-> name = PRECACHE \/ name = RUNTIME.
Proof. unfold current. now rewrite orb_true_iff, !String.eqb_eq. Qed.

Lemma filter_twice {A} (f g : A -> bool) (l : list A) :
  filter f (filter g l) = filter (fun x => g x && f x) l.
Proof.
  induction l as [|x l IH]; simpl; [reflexivity|].
  destruct (g x); simpl; [destruct (f x)|]; now rewrite IH.
Qed.

Lemma keys_filter (p : string -> bool) (s : CacheStorage.t) :
  CacheStorage.keys (filter (fun e => p (fst e)) s) = filter p (CacheStorage.keys s).
Proof.
  unfold CacheStorage.keys. induction s as [|[n c] s IH]; simpl; [reflexivity|].
  destruct (p n); simpl; now rewrite IH.
Qed.

Lemma stale_current (name : string) : stale name = negb (current name).
Proof. unfold stale, current. now rewrite negb_orb. Qed.

Lemma swept_nil (s : CacheStorage.t) : swept [] s = s.
Proof.
  unfold swept. transitivity (filter (fun _ => true) s).
  - apply filter_ext. intros e. cbn [existsb]. now rewrite andb_false_r.
  - induction s as [|e s IH]; cbn [filter]; [reflexivity | now rewrite IH].
Qed.

Lemma swept_cons_stale (n : string) (names : list string) (s : CacheStorage.t) :
  stale n = true -> swept names (CacheStorage.delete s n) = swept (n :: names) s.
Proof.
  intros Hst. unfold swept, CacheStorage.delete. rewrite filter_twice.
  apply filter_ext. intros [k c]. cbn [fst existsb].
  destruct (String.eqb k n) eqn:E; cbn [negb andb orb]; [|reflexivity].
  apply String.eqb_eq in E. subst k. now rewrite Hst.
Qed.

Lemma swept_cons_current (n : string) (names : list string) (s : CacheStorage.t) :
  stale n = false -> swept names s = swept (n :: names) s.
Proof.
  intros Hst. unfold swept. apply filter_ext. intros [k c]. cbn [fst existsb].
  destruct (String.eqb k n) eqn:E; cbn [orb]; [|reflexivity].
  apply String.eqb_eq in E. subst k. now rewrite Hst.
Qed.

Lemma swept_keys (s : CacheStorage.t) :
  swept (CacheStorage.keys s) s = filter (fun e => current (fst e)) s.
Proof.
  unfold swept. apply filter_ext_in. intros [k c] Hin. cbn [fst].
  replace (existsb (String.eqb k) (CacheStorage.keys s)) with true.
  - now rewrite andb_true_r, stale_current, negb_involutive.
  - symmetry. apply existsb_exists. exists k. split; [|apply String.eqb_refl].
    unfold CacheStorage.keys. now apply (in_map fst _ (k, c)).
Qed.

Lemma sweep_run (names : list string) (w : World) :
  mapM sweep_step names w =
  (map (fun _ => tt) names,
   set_caches w (swept names (caches w)),
   map OpDelete (filter stale names)).
Proof.
  revert w. induction names as [|n names IH]; intros w.
  - cbn [mapM map filter]. unfold ret. rewrite swept_nil. now destruct w.
  - cbn [mapM map filter]. unfold bind at 1. unfold sweep_step at 1.
    destruct (stale n) eqn:Est.
    + unfold caches_delete, bind, ret. rewrite IH. cbn [caches set_caches map app].
      rewrite (swept_cons_stale _ _ _ Est), app_nil_r. reflexivity.
    + unfold bind, ret. rewrite IH. cbn [app].
      rewrite (swept_cons_current n _ _ Est), app_nil_r. reflexivity.
Qed.

(** One run of the activate listener: the clients are claimed and the
    stores that are not of the current generation are deleted. *)
Lemma on_activate_run (w : World) :
  on_activate w =
  (Fulfilled tt,
   {| caches := filter (fun e => current (fst e)) (caches w);
      skipWaitingCalled := skipWaitingCalled w;
      clientsClaimed := true |},
   OpClaim :: OpKeys :: map OpDelete (filter stale (CacheStorage.keys (caches w)))).
Proof.
  unfold on_activate.
  change (fun name : string =>
            if negb (String.eqb name PRECACHE) && negb (String.eqb name RUNTIME)
            then caches_delete name else ret tt) with sweep_step.
  unfold bind, clients_claim, caches_keys, ret. cbn [caches].
  rewrite sweep_run. cbn [caches set_caches skipWaitingCalled clientsClaimed app].
  now rewrite swept_keys, app_nil_r.
Qed.

(** C3.  Activation on a namespace that holds the current generation's
    precache and runtime stores beside stores of other names (those of
    three other generation tags, say): exactly the two current stores
    remain, with their content, and every store whose name differs from
    both has been deleted. *)
Theorem activate_keeps_current_generation (w : World) :
  NoDup (CacheStorage.keys (caches w)) ->
  In PRECACHE (CacheStorage.keys (caches w)) ->
  In RUNTIME (CacheStorage.keys (caches w)) ->
  let run := on_activate w in
  let after := caches (world run) in
  value run = Fulfilled tt /\
  (forall n, In n (CacheStorage.keys after) <-> n = PRECACHE \/ n = RUNTIME) /\
  length (CacheStorage.keys after) = 2 /\
  (forall n, In n (CacheStorage.keys (caches w)) -> n <> PRECACHE -> n <> RUNTIME ->
             In (OpDelete n) (ops run) /\ CacheStorage.find after n = None) /\
  CacheStorage.find after PRECACHE = CacheStorage.find (caches w) PRECACHE /\
  CacheStorage.find after RUNTIME = CacheStorage.find (caches w) RUNTIME.
Proof.
  intros Hnd Hp Hr run after. subst after run. rewrite on_activate_run.
  unfold value, world, ops. cbn [fst snd caches].
  rewrite keys_filter.
  assert (Hin : forall n, In n (filter current (CacheStorage.keys (caches w))) <->
                          n = PRECACHE \/ n = RUNTIME).
  { intros n. rewrite filter_In, current_spec. split; [tauto|].
    intros [-> | ->]; tauto. }
  split; [reflexivity|]. split; [exact Hin|]. split; [|split; [|split]].
  - change 2 with (length [PRECACHE; RUNTIME]).
    apply Permutation_length, NoDup_Permutation.
    + now apply NoDup_filter.
    + constructor; [|constructor; [intros []|constructor]].
      intros [H|[]]. now apply PRECACHE_neq_RUNTIME.
    + intros n. rewrite Hin. simpl. intuition congruence.
  - intros n Hn Hnp Hnr.
    assert (Hc : current n = false).
    { destruct (current n) eqn:E; [|reflexivity]. apply current_spec in E. tauto. }
    split.
    + right. right. apply in_map, filter_In. split; [exact Hn|].
      now rewrite stale_current, Hc.
    + now rewrite (StorageFacts.find_filter current), Hc.
  - now rewrite (StorageFacts.find_filter current).
  - now rewrite (StorageFacts.find_filter current).
Qed.

(** *** Install *)

Variable location : URL.

Lemma fetch_all_run (net : Network) (reqs : list Request) (w : World) :
  mapM (fetch net) reqs w = (map net reqs, w, map OpFetch reqs).
Proof.
  induction reqs as [|r reqs IH]; [reflexivity|].
  cbn [mapM map]. unfold bind, fetch at 1, ret. rewrite IH. cbn [app].
  now rewrite app_nil_r.
Qed.

Lemma has_dup_NoDup (l : list string) : has_dup l = false <-> NoDup l.
Proof.
  induction l as [|x l IH]; simpl.
  - split; [constructor | reflexivity].
  - rewrite orb_false_iff, IH. split.
    + intros [Hx Hl]. constructor; [|exact Hl].
      intros Hin. assert (existsb (String.eqb x) l = true); [|congruence].
      apply existsb_exists. exists x. split; [exact Hin | apply String.eqb_refl].
    + intros Hnd. inversion Hnd as [|? ? Hx Hl]; subst. split; [|exact Hl].
      destruct (existsb (String.eqb x) l) eqn:E; [|reflexivity].
      apply existsb_exists in E. destruct E as (y & Hy & Exy).
      apply String.eqb_eq in Exy. subst y. contradiction.
Qed.

(** Of a list of requests whose fetches all resolve, the batch pairs each
    URL with its response. *)
Lemma batch_fulfilled (net : Network) (reqs : list Request) :
  (forall r, In r reqs -> exists res, net r = Fulfilled res) ->
  map fst (batch reqs (map net reqs)) = map req_url reqs /\
  (forall r res, In r reqs -> net r = Fulfilled res ->
                 In (req_url r, res) (batch reqs (map net reqs))).
Proof.
  induction reqs as [|r reqs IH]; intros Hall; [split; [reflexivity | intros ? ? []]|].
  destruct IH as [IHk IHin]; [intros r' Hr'; apply Hall; now right|].
  destruct (Hall r (or_introl eq_refl)) as [res Hres].
  cbn [map batch]. rewrite Hres. cbn [map fst]. split; [now rewrite IHk|].
  intros r' res' [<- | Hr'] Hnet.
  - left. congruence.
  - right. now apply IHin.
Qed.

(** One run of [cache.addAll] on an opened cache. *)
Lemma cache_addAll_run (net : Network) (name : string) (reqs : list Request) (w : World) :
  cache_addAll net name reqs w =
  let outs := map net reqs in
  if existsb fetch_failed outs then (Rejected, w, map OpFetch reqs)
  else if existsb fetch_pending outs then (Pending, w, map OpFetch reqs)
  else if has_dup (map (fun r => Url.without_fragment (req_url r)) reqs) then (Rejected, w, map OpFetch reqs)
  else (Fulfilled tt,
        set_caches w
          (CacheStorage.update (caches w) name
             (fun c => fold_left (fun c e => Cache.put c (fst e) (snd e)) (batch reqs outs) c)),
        map OpFetch reqs ++ map (fun e => OpPut name (fst e) (snd e)) (batch reqs outs)).
Proof.
  unfold cache_addAll, bind. rewrite fetch_all_run. cbv zeta.
  destruct (existsb fetch_failed (map net reqs)); [unfold ret; now rewrite app_nil_r|].
  destruct (existsb fetch_pending (map net reqs)); [unfold ret; now rewrite app_nil_r|].
  destruct (has_dup (map (fun r => Url.without_fragment (req_url r)) reqs)); [unfold ret; now rewrite app_nil_r|].
  unfold bind, write_batch, ret. now rewrite app_nil_r.
Qed.


Lemma batch_keys (b : list (string * Response)) (reqs : list Request) :
  map fst b = map req_url reqs ->
  map (fun e => Url.without_fragment (fst e)) b =
  map (fun r => Url.without_fragment (req_url r)) reqs.
Proof.
  intros H. rewrite <- (map_map fst Url.without_fragment), H. apply map_map.
Qed.

(** One run of the install listener. *)
Lemma on_install_run (net : Network) (w : World) :
  on_install location net w =
  let reqs := (manifest_requests location) in
  let outs := map net reqs in
  let w1 := opened w PRECACHE in
  let fetched := OpOpen PRECACHE :: map OpFetch reqs in
  if existsb fetch_failed outs then (Rejected, w1, fetched)
  else if existsb fetch_pending outs then (Pending, w1, fetched)
  else if has_dup (map (fun r => Url.without_fragment (req_url r)) reqs) then (Rejected, w1, fetched)
  else (Fulfilled tt,
        {| caches :=
             CacheStorage.update (caches w1) PRECACHE
               (fun c => fold_left (fun c e => Cache.put c (fst e) (snd e)) (batch reqs outs) c);
           skipWaitingCalled := true;
           clientsClaimed := clientsClaimed w |},
        fetched ++ map (fun e => OpPut PRECACHE (fst e) (snd e)) (batch reqs outs)
                ++ [OpSkipWaiting]).
Proof.
  unfold on_install. fold (manifest_requests location).
  unfold bind at 1. unfold caches_open at 1. fold (opened w PRECACHE).
  unfold bind at 1. rewrite cache_addAll_run. cbv zeta.
  destruct (existsb fetch_failed (map net (manifest_requests location)));
    [unfold ret; cbn [app]; now rewrite app_nil_r|].
  destruct (existsb fetch_pending (map net (manifest_requests location)));
    [unfold ret; cbn [app]; now rewrite app_nil_r|].
  destruct (has_dup (map (fun r => Url.without_fragment (req_url r)) (manifest_requests location)));
    [unfold ret; cbn [app]; now rewrite app_nil_r|].
  unfold bind, skipWaiting, ret, set_caches.
  cbn [caches skipWaitingCalled clientsClaimed app opened set_caches].
  now rewrite <- app_assoc.
Qed.

Lemma install_fetches (net : Network) (w : World) (r : Request) :
  In (OpFetch r) (ops (on_install location net w)) <-> In r (manifest_requests location).
Proof.
  assert (Hmap : In (OpFetch r) (map OpFetch (manifest_requests location)) <-> In r (manifest_requests location)).
  { rewrite in_map_iff. split; [intros (x & [= ->] & Hx); exact Hx | intros H; now exists r]. }
  rewrite on_install_run. cbv zeta.
  destruct (existsb fetch_failed _); [|destruct (existsb fetch_pending _);
                                       [|destruct (has_dup _)]];
    unfold ops; cbn [snd]; rewrite <- Hmap.
  1-3: split; [intros [H|H]; [discriminate | exact H] | intros H; now right].
  split.
  - intros [H|H]; [discriminate|].
    apply in_app_or in H. destruct H as [H|H]; [exact H|].
    apply in_app_or in H. destruct H as [H|[H|[]]]; [|discriminate].
    apply in_map_iff in H. destruct H as (e & He & _). discriminate.
  - intros H. right. apply in_or_app. now left.
Qed.

(** What the three tests of [addAll] leave when they all pass: every
    fetch resolved with a response [addAll] accepts. *)
Lemma all_fetched (net : Network) (reqs : list Request) :
  existsb fetch_failed (map net reqs) = false ->
  existsb fetch_pending (map net reqs) = false ->
  forall r, In r reqs -> exists res, net r = Fulfilled res /\ addable res = true.
Proof.
  intros Hf Hp r Hr.
  assert (Hnf : fetch_failed (net r) = false).
  { destruct (fetch_failed (net r)) eqn:E; [|reflexivity].
    rewrite <- Hf. symmetry. apply existsb_exists. exists (net r).
    split; [now apply in_map | exact E]. }
  assert (Hnp : fetch_pending (net r) = false).
  { destruct (fetch_pending (net r)) eqn:E; [|reflexivity].
    rewrite <- Hp. symmetry. apply existsb_exists. exists (net r).
    split; [now apply in_map | exact E]. }
  destruct (net r) as [res| |]; try discriminate.
  exists res. split; [reflexivity|]. simpl in Hnf. now destruct (addable res).
Qed.


End Lifecycle.

(** ** The listeners on the sample inputs *)

(** C1.  The stylesheet of the site, requested with an empty runtime store
    and the network down, is a same-origin static request; the promise
    given to [respondWith] fulfils with [undefined], not with the 504
    response, and the page gets a network error.  The thumbnail of an
    allowlisted host fares the same: [undefined], not [Response.error()]. *)
Theorem static_miss_offline_resolves_undefined :
  let run := on_fetch Sample.site Sample.offline Sample.stylesheet Sample.fresh in
  let pic := on_fetch Sample.site Sample.offline Sample.thumbnail Sample.fresh in
  classify Sample.site Sample.stylesheet = SameOriginStatic /\
  Cache.lookup (CacheStorage.get (caches Sample.fresh) RUNTIME) (req_url Sample.stylesheet) = None /\
  value run = Some (Fulfilled Undefined) /\
  value run <> Some (Fulfilled (Resp (new_Response "" 504 "Gateway Timeout"))) /\
  deliver (Fulfilled Undefined) = NetworkError /\
  classify Sample.site Sample.thumbnail = ExternalImage /\
  value pic = Some (Fulfilled Undefined) /\
  value pic <> Some (Fulfilled (Resp Response_error)).
Proof.
  cbv zeta.
  assert (H1 : value (on_fetch Sample.site Sample.offline Sample.stylesheet Sample.fresh)
               = Some (Fulfilled Undefined)).
  { apply swr_miss_offline; [left|..]; reflexivity. }
  assert (H2 : value (on_fetch Sample.site Sample.offline Sample.thumbnail Sample.fresh)
               = Some (Fulfilled Undefined)).
  { apply swr_miss_offline; [right|..]; reflexivity. }
  rewrite H1, H2. repeat split; discriminate.
Qed.

Lemma non_get_not_intercepted_witness :
  on_fetch Sample.site (Sample.serving "saved") Sample.post_form Sample.installed =
  (None, Sample.installed, []).
Proof.
  apply (non_get_not_intercepted Sample.site (Sample.serving "saved") Sample.post_form
           Sample.installed).
  reflexivity.
Defined.

Lemma worker_script_not_intercepted_witness :
  classify Sample.site Sample.worker_script = WorkerScript /\
  on_fetch Sample.site Sample.offline Sample.worker_script Sample.installed =
  (None, Sample.installed, []).
Proof.
  apply (worker_script_not_intercepted Sample.site Sample.offline Sample.worker_script
           Sample.installed); reflexivity.
Defined.

Lemma offline_navigation_serves_shell_witness :
  value (on_fetch Sample.site Sample.offline Sample.page Sample.installed) =
  Some (Fulfilled (Resp (Sample.ok "shell"))) /\
  value (on_fetch Sample.site Sample.offline Sample.page Sample.fresh) =
  Some (Fulfilled (Resp Response_error)).
Proof.
  split.
  - apply (proj1 (offline_navigation_serves_shell Sample.site Sample.offline Sample.page
                    Sample.installed eq_refl eq_refl)).
    reflexivity.
  - apply (proj2 (offline_navigation_serves_shell Sample.site Sample.offline Sample.page
                    Sample.fresh eq_refl eq_refl)).
    reflexivity.
Defined.

Lemma swr_hit_served_and_refreshed_witness :
  let run := on_fetch Sample.site (Sample.serving "new css") Sample.stylesheet Sample.installed in
  let missing := on_fetch Sample.site (fun _ => Fulfilled Sample.not_found) Sample.stylesheet
                   Sample.installed in
  value run = Some (Fulfilled (Resp (Sample.ok "css"))) /\
  Cache.lookup (CacheStorage.get (caches (world run)) RUNTIME) (req_url Sample.stylesheet) =
  Some (Sample.ok "new css") /\
  value missing = Some (Fulfilled (Resp (Sample.ok "css"))) /\
  world missing = Sample.installed /\
  on_fetch Sample.site Sample.hung Sample.stylesheet Sample.installed =
  (Some (Fulfilled (Resp (Sample.ok "css"))), Sample.installed,
   [OpOpen RUNTIME; OpMatch RUNTIME (req_url Sample.stylesheet); OpFetch Sample.stylesheet]).
Proof.
  cbv zeta.
  destruct (swr_hit_served_and_refreshed Sample.site (Sample.serving "new css")
              Sample.stylesheet Sample.installed (Sample.ok "css"))
    as (Hserved & Hfresh & _).
  - left. reflexivity.
  - reflexivity.
  - destruct (swr_hit_served_and_refreshed Sample.site (fun _ => Fulfilled Sample.not_found)
                Sample.stylesheet Sample.installed (Sample.ok "css"))
      as (Hserved' & _ & Hkept).
    + left. reflexivity.
    + reflexivity.
    + split; [exact Hserved|]. split; [|split; [exact Hserved'|split; [|reflexivity]]].
      * apply (Hfresh (Sample.ok "new css")); [reflexivity | left; reflexivity].
      * apply Hkept. intros r [= <-] [H | H]; discriminate H.
Defined.

Lemma swr_twice_one_entry_witness :
  let w1 := world (on_fetch Sample.site (Sample.serving "v1") Sample.stylesheet Sample.fresh) in
  let w2 := world (on_fetch Sample.site (Sample.serving "v2") Sample.stylesheet w1) in
  Cache.count (CacheStorage.get (caches w2) RUNTIME) (req_url Sample.stylesheet) = 1 /\
  Cache.lookup (CacheStorage.get (caches w2) RUNTIME) (req_url Sample.stylesheet) =
  Some (Sample.ok "v2").
Proof.
  apply (swr_twice_one_entry Sample.site (Sample.serving "v1") (Sample.serving "v2")
           Sample.stylesheet Sample.fresh (Sample.ok "v1") (Sample.ok "v2")).
  - left. reflexivity.
  - reflexivity.
  - left. reflexivity.
  - reflexivity.
  - left. reflexivity.
Defined.

(** C7, as stated, fails: a script's GET of a picture on a host outside the
    allowlist, sent with an accept header that includes text/html, is
    image-shaped and goes to another origin, yet it is handled as a
    navigation, and the response fetched for it is written to the runtime
    store. *)
Lemma unlisted_image_cached_as_navigation :
  let req := Sample.foreign_image_as_html in
  let run := on_fetch Sample.site (Sample.serving "picture") req Sample.fresh in
  isImageLike req = true /\
  String.eqb (origin (Url.parse (req_url req))) (origin Sample.site) = false /\
  whitelist_has Sample.site (host (Url.parse (req_url req))) = false /\
  classify Sample.site req = Navigation /\
  ops run = [OpFetch (reloadReq Sample.site (req_url req)); OpOpen RUNTIME;
             OpPut RUNTIME (req_url req) (Sample.ok "picture")] /\
  Cache.lookup (CacheStorage.get (caches (world run)) RUNTIME) (req_url req) =
  Some (Sample.ok "picture") /\
  ~ (classify Sample.site req = Passthrough /\
     forall n k r, ~ In (OpPut n k r) (ops run)).
Proof.
  cbv zeta. repeat split; try reflexivity.
  intros [H _]. discriminate H.
Qed.

Lemma unlisted_image_passes_through_witness :
  let run := on_fetch Sample.site (Sample.serving "picture") Sample.foreign_image Sample.installed in
  classify Sample.site Sample.foreign_image = Passthrough /\
  on_fetch Sample.site (Sample.serving "picture") Sample.foreign_image =
  respondWith (respond_passthrough (Sample.serving "picture") Sample.foreign_image) /\
  (forall n k r, ~ In (OpPut n k r) (ops run)) /\
  (forall n, CacheStorage.get (caches (world run)) n = CacheStorage.get (caches Sample.installed) n).
Proof.
  apply (unlisted_image_passes_through Sample.site (Sample.serving "picture")
           Sample.foreign_image Sample.installed); reflexivity.
Defined.

Lemma precache_read_for_shell_only_witness :
  let run := on_fetch Sample.site Sample.offline Sample.icon Sample.installed in
  Cache.lookup (CacheStorage.get (caches Sample.installed) PRECACHE) (req_url Sample.icon) =
  Some (Sample.ok "icon") /\
  classify Sample.site Sample.icon = SameOriginStatic /\
  (value run = None \/
   value run = Some (Fulfilled Undefined) \/
   value run = Some (Fulfilled (Resp Response_error))) /\
  (forall name key, In (OpMatch name key) (ops run) ->
     (name = PRECACHE /\ key = Url.resolve Sample.site "index.html" /\
      classify Sample.site Sample.icon = Navigation) \/
     (name = RUNTIME /\ key = req_url Sample.icon /\
      classify Sample.site Sample.icon <> Navigation)).
Proof.
  cbv zeta.
  destruct (precache_read_for_shell_only Sample.site Sample.offline Sample.icon Sample.installed)
    as (Hreads & _ & Hunserved).
  split; [reflexivity|]. split; [reflexivity|]. split; [|exact Hreads].
  apply Hunserved; [discriminate | reflexivity | reflexivity].
Defined.

Lemma activate_keeps_current_generation_witness :
  let run := on_activate Sample.after_upgrades in
  CacheStorage.keys (caches Sample.after_upgrades) =
  ["precache-edu-ideas-v0.8.0"; "runtime-edu-ideas-v0.9.0"; PRECACHE;
   "runtime-edu-ideas-v0.9.5"; RUNTIME]%string /\
  CacheStorage.keys (caches (world run)) = [PRECACHE; RUNTIME] /\
  length (CacheStorage.keys (caches (world run))) = 2 /\
  (forall n, In n (CacheStorage.keys (caches (world run))) <-> n = PRECACHE \/ n = RUNTIME).
Proof.
  cbv zeta.
  destruct (activate_keeps_current_generation Sample.after_upgrades)
    as (_ & Hnames & Hlen & _).
  - apply has_dup_NoDup. reflexivity.
  - simpl. tauto.
  - simpl. tauto.
  - split; [reflexivity|]. split; [reflexivity|]. split; [exact Hlen | exact Hnames].
Defined.



(** * Further properties of the listeners *)

(** ** Stores, opened and written *)

Lemma keys_of_update (s : CacheStorage.t) (n : string) (f : Cache.t -> Cache.t) :
  CacheStorage.keys (CacheStorage.update s n f) = CacheStorage.keys s.
Proof.
  unfold CacheStorage.keys. induction s as [|[k c] s IH]; simpl; [reflexivity|].
  destruct (String.eqb k n); simpl; [reflexivity | now rewrite IH].
Qed.

Lemma keys_of_open (s : CacheStorage.t) (n : string) :
  CacheStorage.keys (CacheStorage.open s n) = CacheStorage.keys s \/
  CacheStorage.keys (CacheStorage.open s n) = CacheStorage.keys s ++ [n].
Proof.
  unfold CacheStorage.open. destruct (CacheStorage.find s n); [now left|].
  right. unfold CacheStorage.keys. now rewrite map_app.
Qed.

Lemma stored_elsewhere (w : World) (name other key : string) (r : Response) :
  name <> other ->
  CacheStorage.get (caches (stored w name key r)) other = CacheStorage.get (caches w) other.
Proof.
  intros Hne. unfold stored, opened. cbn [caches set_caches].
  now rewrite StorageFacts.get_update_other, StorageFacts.get_open.
Qed.

Lemma RUNTIME_neq_PRECACHE : RUNTIME <> PRECACHE.
Proof. discriminate. Qed.

Section FetchStrategies.

Variable location : URL.

(** The answer of an offline navigation is a function of the precache
    store. *)
Lemma navigation_offline_value (net : Network) (req : Request) (w : World) :
  classify location req = Navigation ->
  net (reloadReq location (req_url req)) = Rejected ->
  value (on_fetch location net req w) =
  Some (Fulfilled (Resp (match Cache.lookup (CacheStorage.get (caches w) PRECACHE)
                                 (Url.resolve location "index.html") with
                         | Some doc => doc
                         | None => Response_error
                         end))).
Proof.
  intros Hc Hnet.
  rewrite on_fetch_by_category, Hc, respondWith_run, respond_navigation_run.
  cbv zeta. rewrite Hnet. reflexivity.
Qed.

(** X1.  An online navigation: the fetched response is returned, whatever
    its status, and the precache store is as it was.  Unless the status is
    206 the response is put in the runtime store under the request's URL,
    which then has that one entry; a response of status 206 is refused by
    the Cache and no cache entry is written. *)
Theorem navigation_online_stores_fresh (net : Network) (req : Request) (w : World)
        (fresh : Response) :
  classify location req = Navigation ->
  net (reloadReq location (req_url req)) = Fulfilled fresh ->
  let run := on_fetch location net req w in
  let runtime := CacheStorage.get (caches (world run)) RUNTIME in
  value run = Some (Fulfilled (Resp fresh)) /\
  CacheStorage.get (caches (world run)) PRECACHE = CacheStorage.get (caches w) PRECACHE /\
  (res_status fresh <> 206 ->
   ops run = [OpFetch (reloadReq location (req_url req)); OpOpen RUNTIME;
              OpPut RUNTIME (req_url req) fresh] /\
   Cache.lookup runtime (req_url req) = Some fresh /\
   Cache.count runtime (req_url req) = 1) /\
  (res_status fresh = 206 ->
   ops run = [OpFetch (reloadReq location (req_url req)); OpOpen RUNTIME;
              OpPutRefused RUNTIME (req_url req) fresh] /\
   forall n, CacheStorage.get (caches (world run)) n = CacheStorage.get (caches w) n).
Proof.
  intros Hc Hnet run runtime. subst runtime run.
  rewrite on_fetch_by_category, Hc, respondWith_run, respond_navigation_run.
  cbv zeta. rewrite Hnet.
  destruct (Nat.eqb_spec (res_status fresh) 206) as [E | E];
    unfold value, world, ops; cbn [fst snd].
  - split; [reflexivity|]. split; [apply opened_get|]. split; [intros H; contradiction|].
    intros _. split; [reflexivity|]. intros n. apply opened_get.
  - split; [reflexivity|].
    split; [apply stored_elsewhere, RUNTIME_neq_PRECACHE|].
    split; [|intros H; contradiction].
    intros _. rewrite stored_runtime. split; [reflexivity|].
    split; [apply CacheFacts.lookup_put_same | apply CacheFacts.count_put_same].
Qed.

(** X2.  What an offline navigation is answered with depends on the
    precache store only: the copy of a page that an earlier online
    navigation left in the runtime store is not read back. *)
Theorem offline_navigation_ignores_runtime (net1 net2 : Network) (req : Request) (w : World) :
  classify location req = Navigation ->
  net2 (reloadReq location (req_url req)) = Rejected ->
  (forall w', CacheStorage.get (caches w') PRECACHE = CacheStorage.get (caches w) PRECACHE ->
              value (on_fetch location net2 req w') = value (on_fetch location net2 req w)) /\
  value (on_fetch location net2 req (world (on_fetch location net1 req w))) =
  value (on_fetch location net2 req w).
Proof.
  intros Hc Hnet.
  assert (Hdep : forall w', CacheStorage.get (caches w') PRECACHE =
                            CacheStorage.get (caches w) PRECACHE ->
                            value (on_fetch location net2 req w') =
                            value (on_fetch location net2 req w)).
  { intros w' Hsame. rewrite !navigation_offline_value by assumption. now rewrite Hsame. }
  split; [exact Hdep|]. apply Hdep.
  rewrite on_fetch_by_category, Hc, respondWith_run, respond_navigation_run. cbv zeta.
  destruct (net1 (reloadReq location (req_url req))) as [fresh| |];
    [destruct (Nat.eqb (res_status fresh) 206)| |]; rewrite world_of.
  - apply opened_get.
  - apply stored_elsewhere, RUNTIME_neq_PRECACHE.
  - apply opened_get.
  - reflexivity.
Qed.

(** X3.  A stale-while-revalidate request that misses the runtime store
    while the network serves a response the strategy stores: the answer is
    the network's response, and the same request made afterwards with the
    network down is answered with that response, from the runtime store. *)
Theorem swr_miss_then_offline_hit (net1 net2 : Network) (req : Request) (w : World)
        (r : Response) :
  stale_while_revalidate (classify location req) ->
  let cat := classify location req in
  Cache.lookup (CacheStorage.get (caches w) RUNTIME) (req_url req) = None ->
  net1 (revalidation_request cat req) = Fulfilled r -> refreshes cat r ->
  net2 (revalidation_request cat req) = Rejected ->
  let run := on_fetch location net1 req w in
  value run = Some (Fulfilled (Resp r)) /\
  value (on_fetch location net2 req (world run)) = Some (Fulfilled (Resp r)).
Proof.
  intros Hcat cat Hmiss H1 Hr H2 run. subst run.
  apply refreshes_spec in Hr.
  rewrite (swr_run location net1 req w Hcat). cbv zeta. fold cat.
  rewrite H1, Hr, Hmiss, world_of. split; [reflexivity|].
  rewrite (swr_run location net2 req _ Hcat). cbv zeta. fold cat.
  rewrite H2, stored_runtime, CacheFacts.lookup_put_same. reflexivity.
Qed.

(** X4.  A stale-while-revalidate request whose fetch resolves with a
    response the strategy does not store (a 404, say): the page gets the
    cached entry if there is one and the network's response otherwise, and
    no cache entry is written. *)
Theorem swr_unstored_response_passed_on (net : Network) (req : Request) (w : World)
        (r : Response) :
  stale_while_revalidate (classify location req) ->
  let cat := classify location req in
  net (revalidation_request cat req) = Fulfilled r -> ~ refreshes cat r ->
  let run := on_fetch location net req w in
  value run =
  Some (Fulfilled (Resp (match Cache.lookup (CacheStorage.get (caches w) RUNTIME) (req_url req) with
                         | Some c => c
                         | None => r
                         end))) /\
  (forall n, CacheStorage.get (caches (world run)) n = CacheStorage.get (caches w) n) /\
  (forall n k r', ~ In (OpPut n k r') (ops run)).
Proof.
  intros Hcat cat Hnet Hno run. subst run.
  assert (Hb : refreshesb cat r = false).
  { destruct (refreshesb cat r) eqn:E; [|reflexivity]. now apply refreshes_spec in E. }
  rewrite (swr_run location net req w Hcat). cbv zeta. fold cat.
  rewrite Hnet, Hb. unfold value, world, ops. cbn [fst snd]. split; [|split].
  - now destruct (Cache.lookup _ _).
  - intros n. apply opened_get.
  - intros n k r' [H|[H|[H|[]]]]; discriminate.
Qed.

(** X5.  The passthrough strategy: a response of the network is returned
    without any cache being opened; a rejected fetch is answered with the
    runtime store's entry for the request, or with [Response.error()] when
    it has none; the content of every cache is left as it was. *)
Theorem passthrough_network_then_runtime (net : Network) (req : Request) (w : World) :
  classify location req = Passthrough ->
  let run := on_fetch location net req w in
  (forall r, net req = Fulfilled r -> run = (Some (Fulfilled (Resp r)), w, [OpFetch req])) /\
  (net req = Rejected ->
   (forall c, Cache.lookup (CacheStorage.get (caches w) RUNTIME) (req_url req) = Some c ->
              value run = Some (Fulfilled (Resp c))) /\
   (Cache.lookup (CacheStorage.get (caches w) RUNTIME) (req_url req) = None ->
    value run = Some (Fulfilled (Resp Response_error)))) /\
  (net req = Pending -> run = (Some Pending, w, [OpFetch req])) /\
  (forall n, CacheStorage.get (caches (world run)) n = CacheStorage.get (caches w) n) /\
  (forall n k r, ~ In (OpPut n k r) (ops run)).
Proof.
  intros Hc run. subst run.
  rewrite on_fetch_by_category, Hc, respondWith_run, respond_passthrough_run.
  split; [|split; [|split; [|split]]].
  - intros r ->. reflexivity.
  - intros ->. split; [intros c -> | intros ->]; reflexivity.
  - intros ->. reflexivity.
  - intros n. destruct (net req); rewrite world_of; try reflexivity. apply opened_get.
  - intros n k r. destruct (net req); unfold ops; cbn [snd]; intros Hin;
      repeat (destruct Hin as [Hin|Hin]; try discriminate; try contradiction).
Qed.

(** X6.  What one strategy stores another serves: after a
    stale-while-revalidate request has stored a response, a passthrough
    request for the same URL whose fetch rejects is answered with that
    response. *)
Theorem passthrough_fallback_serves_swr_entry (net1 net2 : Network) (req1 req2 : Request)
        (w : World) (r : Response) :
  req_url req2 = req_url req1 ->
  stale_while_revalidate (classify location req1) ->
  let cat := classify location req1 in
  net1 (revalidation_request cat req1) = Fulfilled r -> refreshes cat r ->
  classify location req2 = Passthrough ->
  net2 req2 = Rejected ->
  value (on_fetch location net2 req2 (world (on_fetch location net1 req1 w))) =
  Some (Fulfilled (Resp r)).
Proof.
  intros Hurl Hcat cat H1 Hr Hc2 H2.
  apply refreshes_spec in Hr.
  rewrite (swr_run location net1 req1 w Hcat). cbv zeta. fold cat.
  rewrite H1, Hr, world_of.
  rewrite on_fetch_by_category, Hc2, respondWith_run, respond_passthrough_run, H2.
  rewrite Hurl, stored_runtime, CacheFacts.lookup_put_same. reflexivity.
Qed.

End FetchStrategies.

(** ** What the fetch listener leaves alone *)

Lemma keys_opened (w : World) (name n : string) :
  In n (CacheStorage.keys (caches (opened w name))) <->
  In n (CacheStorage.keys (caches w)) \/
  (n = name /\ CacheStorage.find (caches w) name = None).
Proof.
  unfold opened, CacheStorage.open. cbn [caches set_caches].
  destruct (CacheStorage.find (caches w) name) eqn:E.
  - split; [now left | intros [H | [_ H]]; [exact H | discriminate]].
  - unfold CacheStorage.keys. rewrite map_app, in_app_iff. simpl.
    split; intros [H | H]; try tauto.
    + destruct H as [<- | []]. now right.
    + right. left. symmetry. apply H.
Qed.

Lemma keys_stored (w : World) (name key : string) (r : Response) :
  CacheStorage.keys (caches (stored w name key r)) =
  CacheStorage.keys (caches (opened w name)).
Proof. unfold stored. cbn [caches set_caches]. apply keys_of_update. Qed.

Section FetchFrame.

Variable location : URL.

(** The worlds a run of the fetch listener can end in. *)
Lemma fetch_world_cases (net : Network) (req : Request) (w : World) :
  let w' := world (on_fetch location net req w) in
  w' = w \/ w' = opened w PRECACHE \/ w' = opened w RUNTIME \/
  exists r, w' = stored w RUNTIME (req_url req) r.
Proof.
  cbv zeta. rewrite on_fetch_by_category.
  destruct (classify location req); try (left; reflexivity); rewrite respondWith_run, world_of.
  - rewrite respond_navigation_run. cbv zeta.
    destruct (net (reloadReq location (req_url req))) as [fresh| |];
      [destruct (Nat.eqb (res_status fresh) 206)| |]; rewrite world_of.
    + right. right. now left.
    + right. right. right. now exists fresh.
    + right. now left.
    + now left.
  - rewrite respond_static_run. cbv zeta.
    destruct (net req) as [res| |]; [destruct (keep_static res)| |]; rewrite world_of;
      try (right; right; left; reflexivity).
    right. right. right. now exists res.
  - rewrite respond_image_run. cbv zeta.
    destruct (net (with_mode req Cors)) as [res| |]; [destruct (keep_image res)| |];
      rewrite world_of; try (right; right; left; reflexivity).
    right. right. right. now exists res.
  - rewrite respond_passthrough_run.
    destruct (net req); rewrite world_of; [now left | right; right; now left | now left].
Qed.

(** The operations a run of the fetch listener performs: fetches, opening
    one of the two current stores, lookups, and puts. *)
Lemma fetch_ops_kinds (net : Network) (req : Request) (w : World) (o : Op) :
  In o (ops (on_fetch location net req w)) ->
  (exists r, o = OpFetch r) \/ o = OpOpen PRECACHE \/ o = OpOpen RUNTIME \/
  (exists n k, o = OpMatch n k) \/ (exists r, o = OpPut RUNTIME (req_url req) r) \/
  (exists r, o = OpPutRefused RUNTIME (req_url req) r).
Proof.
  rewrite on_fetch_by_category.
  destruct (classify location req); try (intros []); rewrite respondWith_run; unfold ops at 1;
    cbn [snd].
  - rewrite respond_navigation_run. cbv zeta.
    destruct (net (reloadReq location (req_url req))) as [fresh| |];
      [destruct (Nat.eqb (res_status fresh) 206)| |]; unfold ops; cbn [snd]; intros Hin;
      repeat (destruct Hin as [<-|Hin]; [eauto 9|]); contradiction.
  - rewrite respond_static_run. cbv zeta.
    destruct (net req) as [res| |]; [destruct (keep_static res)| |]; unfold ops; cbn [snd app];
      intros Hin; repeat (destruct Hin as [<-|Hin]; [eauto 9|]); contradiction.
  - rewrite respond_image_run. cbv zeta.
    destruct (net (with_mode req Cors)) as [res| |]; [destruct (keep_image res)| |];
      unfold ops; cbn [snd app];
      intros Hin; repeat (destruct Hin as [<-|Hin]; [eauto 9|]); contradiction.
  - rewrite respond_passthrough_run.
    destruct (net req); unfold ops; cbn [snd]; intros Hin;
      repeat (destruct Hin as [<-|Hin]; [eauto 9|]); contradiction.
Qed.

(** X7.  Whatever the request and the network, the fetch listener leaves
    the content of the precache store and of every store but the runtime
    one as it was, and in the runtime store every entry that the request
    does not match (whose URL differs from the request's in more than the
    fragment); it removes no store and creates none but the two current
    ones; it neither claims clients nor calls [skipWaiting], and it
    deletes no cache. *)
Theorem fetch_listener_frame (net : Network) (req : Request) (w : World) :
  let run := on_fetch location net req w in
  let w' := world run in
  (forall n, n <> RUNTIME ->
             CacheStorage.get (caches w') n = CacheStorage.get (caches w) n) /\
  (forall k, Cache.same_key (req_url req) k = false ->
             Cache.lookup (CacheStorage.get (caches w') RUNTIME) k =
             Cache.lookup (CacheStorage.get (caches w) RUNTIME) k) /\
  (forall n, In n (CacheStorage.keys (caches w)) -> In n (CacheStorage.keys (caches w'))) /\
  (forall n, In n (CacheStorage.keys (caches w')) ->
             In n (CacheStorage.keys (caches w)) \/ n = PRECACHE \/ n = RUNTIME) /\
  skipWaitingCalled w' = skipWaitingCalled w /\
  clientsClaimed w' = clientsClaimed w /\
  (forall n, ~ In (OpDelete n) (ops run)) /\
  ~ In OpKeys (ops run) /\ ~ In OpClaim (ops run) /\ ~ In OpSkipWaiting (ops run).
Proof.
  intros run w'.
  assert (Hops : forall o, In o (ops run) ->
                           (forall n, o <> OpDelete n) /\ o <> OpKeys /\ o <> OpClaim /\
                           o <> OpSkipWaiting).
  { intros o Ho. apply fetch_ops_kinds in Ho.
    destruct Ho as [[r ->]|[->|[->|[(n & k & ->)|[[r ->]|[r ->]]]]]]; repeat split;
      try discriminate; intros ?; discriminate. }
  assert (Hw : w' = w \/ w' = opened w PRECACHE \/ w' = opened w RUNTIME \/
               exists r, w' = stored w RUNTIME (req_url req) r)
    by apply fetch_world_cases.
  split; [|split; [|split; [|split; [|split; [|split; [|split; [|split; [|split]]]]]]]].
  - intros n Hn. destruct Hw as [->|[->|[->|[r ->]]]];
      [reflexivity | apply opened_get | apply opened_get |].
    apply stored_elsewhere. congruence.
  - intros k Hk. destruct Hw as [->|[->|[->|[r ->]]]];
      [reflexivity | now rewrite opened_get | now rewrite opened_get |].
    rewrite stored_runtime. now apply CacheFacts.lookup_put_other.
  - intros n Hn. destruct Hw as [->|[->|[->|[r ->]]]]; [exact Hn | | |];
      try rewrite keys_stored; apply keys_opened; now left.
  - intros n Hn. destruct Hw as [->|[->|[->|[r ->]]]]; [now left | | |];
      try rewrite keys_stored in Hn; apply keys_opened in Hn;
      destruct Hn as [Hn | [-> _]]; tauto.
  - destruct Hw as [->|[->|[->|[r ->]]]]; reflexivity.
  - destruct Hw as [->|[->|[->|[r ->]]]]; reflexivity.
  - intros n Hin. exact (proj1 (Hops _ Hin) n eq_refl).
  - intros Hin. exact (proj1 (proj2 (Hops _ Hin)) eq_refl).
  - intros Hin. exact (proj1 (proj2 (proj2 (Hops _ Hin))) eq_refl).
  - intros Hin. exact (proj2 (proj2 (proj2 (Hops _ Hin))) eq_refl).
Qed.

(** X8.  Whatever the fetch listener writes is a response the network has
    just served for the request: a put goes to the runtime store, under
    the request's URL, with the response of a fetch of this run; after the
    run the key has that one entry. *)
Theorem fetch_listener_stores_fetched_response (net : Network) (req : Request) (w : World)
        (n k : string) (r : Response) :
  let run := on_fetch location net req w in
  In (OpPut n k r) (ops run) ->
  n = RUNTIME /\ k = req_url req /\
  (exists fetched, In (OpFetch fetched) (ops run) /\ net fetched = Fulfilled r) /\
  Cache.lookup (CacheStorage.get (caches (world run)) RUNTIME) (req_url req) = Some r /\
  Cache.count (CacheStorage.get (caches (world run)) RUNTIME) (req_url req) = 1.
Proof.
  cbv zeta. rewrite on_fetch_by_category.
  destruct (classify location req); try (intros []); rewrite respondWith_run; unfold ops, world;
    cbn [fst snd].
  - rewrite respond_navigation_run. cbv zeta.
    destruct (net (reloadReq location (req_url req))) as [fresh| |] eqn:E;
      [destruct (Nat.eqb (res_status fresh) 206)| |]; cbn [fst snd];
      intros Hin; repeat (destruct Hin as [Hin|Hin]; try discriminate; try contradiction).
    inversion Hin; subst. rewrite stored_runtime. repeat split.
    + exists (reloadReq location (req_url req)). split; [now left | exact E].
    + apply CacheFacts.lookup_put_same.
    + apply CacheFacts.count_put_same.
  - rewrite respond_static_run. cbv zeta.
    destruct (net req) as [res| |] eqn:E; [destruct (keep_static res)| |]; cbn [fst snd app];
      intros Hin; repeat (destruct Hin as [Hin|Hin]; try discriminate; try contradiction).
    inversion Hin; subst. rewrite stored_runtime. repeat split.
    + exists req. split; [right; right; now left | exact E].
    + apply CacheFacts.lookup_put_same.
    + apply CacheFacts.count_put_same.
  - rewrite respond_image_run. cbv zeta.
    destruct (net (with_mode req Cors)) as [res| |] eqn:E; [destruct (keep_image res)| |];
      cbn [fst snd app];
      intros Hin; repeat (destruct Hin as [Hin|Hin]; try discriminate; try contradiction).
    inversion Hin; subst. rewrite stored_runtime. repeat split.
    + exists (with_mode req Cors). split; [right; right; now left | exact E].
    + apply CacheFacts.lookup_put_same.
    + apply CacheFacts.count_put_same.
  - rewrite respond_passthrough_run.
    destruct (net req); cbn [fst snd]; intros Hin;
      repeat (destruct Hin as [Hin|Hin]; try discriminate; try contradiction).
Qed.

(** X9.  The requests the listener leaves to the browser: it returns
    without calling [respondWith] exactly when the method is not GET, or
    when the request is not a navigation, goes to the worker's origin and
    has a path ending in "/sw.js"; then it has done nothing at all.  A
    navigation to the worker's script is therefore answered by the
    listener. *)
Theorem respondWith_skipped_iff (net : Network) (req : Request) (w : World) :
  let run := on_fetch location net req w in
  let url := Url.parse (req_url req) in
  (value run = None <->
   String.eqb (req_method req) "GET" = false \/
   (isNavigationRequest req = false /\
    String.eqb (origin url) (origin location) = true /\
    Str.endsWith (pathname url) "/sw.js" = true)) /\
  (value run = None -> run = (None, w, [])).
Proof.
  cbv zeta.
  assert (Hsome : forall p : M (Settled Plain), value (respondWith p w) <> None).
  { intros p. rewrite respondWith_run. discriminate. }
  unfold on_fetch.
  destruct (String.eqb (req_method req) "GET"); cbn [negb].
  2: { split; [split; [now left | reflexivity] | reflexivity]. }
  destruct (isNavigationRequest req).
  { split; [split|]; intros H; try (now apply Hsome in H).
    destruct H as [H | [H _]]; discriminate. }
  destruct (String.eqb (origin (Url.parse (req_url req))) (origin location)).
  - destruct (Str.endsWith (pathname (Url.parse (req_url req))) "/sw.js").
    + split; [split; [intros _; right; repeat split | reflexivity] | reflexivity].
    + split; [split|]; intros H; try (now apply Hsome in H).
      destruct H as [H | (_ & _ & H)]; discriminate.
  - destruct (isImageLike req && whitelist_has location (host (Url.parse (req_url req))));
      (split; [split|]; intros H; try (now apply Hsome in H));
      destruct H as [H | (_ & H & _)]; discriminate.
Qed.

End FetchFrame.

(** ** More of the lifecycle *)

Lemma filter_none {A} (f : A -> bool) (l : list A) :
  (forall x, f x = false) -> filter f l = [].
Proof.
  intros Hf. induction l as [|x l IH]; simpl; [reflexivity|]. now rewrite Hf.
Qed.

Lemma filter_again {A} (f : A -> bool) (l : list A) :
  filter f (filter f l) = filter f l.
Proof.
  rewrite filter_twice. apply filter_ext. intros x. now destruct (f x).
Qed.

Lemma stale_after_sweep (s : CacheStorage.t) :
  filter stale (CacheStorage.keys (filter (fun e => current (fst e)) s)) = [].
Proof.
  rewrite keys_filter, filter_twice. apply filter_none.
  intros n. rewrite stale_current. now destruct (current n).
Qed.

(** X10.  Activation, on any namespace: the names left are among the two
    current ones and among those there before (no store is created), the
    two current stores keep their content, and a second activation changes
    nothing and deletes nothing. *)
Theorem activate_bounded_and_idempotent (w : World) :
  let w1 := world (on_activate w) in
  (forall n, In n (CacheStorage.keys (caches w1)) ->
             (n = PRECACHE \/ n = RUNTIME) /\ In n (CacheStorage.keys (caches w))) /\
  (forall n, n = PRECACHE \/ n = RUNTIME ->
             CacheStorage.find (caches w1) n = CacheStorage.find (caches w) n) /\
  skipWaitingCalled w1 = skipWaitingCalled w /\
  clientsClaimed w1 = true /\
  world (on_activate w1) = w1 /\
  ops (on_activate w1) = [OpClaim; OpKeys].
Proof.
  cbv zeta. rewrite !on_activate_run, !world_of. unfold ops.
  cbn [snd caches skipWaitingCalled clientsClaimed].
  split; [|split; [|split; [|split; [|split]]]]; try reflexivity.
  - intros n. rewrite keys_filter, filter_In, current_spec. tauto.
  - intros n Hn. apply current_spec in Hn. now rewrite (StorageFacts.find_filter current), Hn.
  - now rewrite filter_again.
  - now rewrite stale_after_sweep.
Qed.

Section InstallFailures.

Variable location : URL.

Lemma manifest_request_iff (r : Request) :
  In r (manifest_requests location) <->
  exists u, In u PRECACHE_URLS /\ r = reloadReq location u.
Proof.
  unfold manifest_requests. rewrite in_map_iff.
  split; intros (u & H1 & H2); exists u;
    [split; [exact H2 | now symmetry] | split; [now symmetry | exact H1]].
Qed.

(** An install that fulfils has stored what it fetched. *)
Lemma install_fulfilled_lookup (net : Network) (w : World) (u : string) :
  value (on_install location net w) = Fulfilled tt ->
  In u PRECACHE_URLS ->
  exists res, net (reloadReq location u) = Fulfilled res /\
              Cache.lookup (CacheStorage.get (caches (world (on_install location net w))) PRECACHE)
                           (Url.resolve location u) = Some res.
Proof.
  rewrite on_install_run. cbv zeta.
  destruct (existsb fetch_failed (map net (manifest_requests location))) eqn:Hf; [discriminate|].
  destruct (existsb fetch_pending (map net (manifest_requests location))) eqn:Hp; [discriminate|].
  destruct (has_dup (map (fun r => Url.without_fragment (req_url r)) (manifest_requests location))) eqn:Hd; [discriminate|].
  intros _ Hu. rewrite world_of. cbn [caches].
  assert (Hr : In (reloadReq location u) (manifest_requests location)).
  { apply manifest_request_iff. exists u. split; [exact Hu | reflexivity]. }
  destruct (all_fetched net _ Hf Hp _ Hr) as (res & Hres & _).
  exists res. split; [exact Hres|].
  destruct (batch_fulfilled net (manifest_requests location)) as [Hkeys Hin].
  { intros r' Hr'. destruct (all_fetched net _ Hf Hp _ Hr') as (res' & Hres' & _).
    now exists res'. }
  unfold opened. cbn [caches set_caches]. rewrite StorageFacts.get_update_open.
  apply CacheFacts.lookup_batch.
  - rewrite (batch_keys _ _ Hkeys). now apply has_dup_NoDup.
  - exact (Hin (reloadReq location u) res Hr Hres).
Qed.

Lemma bad_status_not_addable (res : Response) :
  res_status res < 200 \/ 299 < res_status res -> addable res = false.
Proof.
  intros H. unfold addable.
  destruct (Nat.leb_spec 200 (res_status res)); destruct (Nat.leb_spec (res_status res) 299);
    try lia; now rewrite ?andb_false_r.
Qed.

(** X11.  Install fails on a bad answer as on a failed fetch: when the
    fetch of a manifest resource resolves with a status outside 200..299
    the install promise rejects.  Whenever the promise does not fulfil,
    [skipWaiting] is not called and no cache entry is written; and while
    one fetch hangs and none has failed, the promise stays pending. *)
Theorem install_rejects_bad_status (net : Network) (w : World) :
  let run := on_install location net w in
  ((exists u res, In u PRECACHE_URLS /\ net (reloadReq location u) = Fulfilled res /\
                  (res_status res < 200 \/ 299 < res_status res)) ->
   value run = Rejected) /\
  (value run <> Fulfilled tt ->
   skipWaitingCalled (world run) = skipWaitingCalled w /\
   ~ In OpSkipWaiting (ops run) /\
   (forall n k r, ~ In (OpPut n k r) (ops run)) /\
   (forall n, CacheStorage.get (caches (world run)) n = CacheStorage.get (caches w) n)) /\
  ((forall u, In u PRECACHE_URLS -> fetch_failed (net (reloadReq location u)) = false) ->
   (exists u, In u PRECACHE_URLS /\ net (reloadReq location u) = Pending) ->
   value run = Pending).
Proof.
  cbv zeta. rewrite on_install_run. cbv zeta.
  assert (Hquiet : forall v : Settled unit,
             let run := (v, opened w PRECACHE,
                         OpOpen PRECACHE :: map OpFetch (manifest_requests location)) in
             skipWaitingCalled (world run) = skipWaitingCalled w /\
             ~ In OpSkipWaiting (ops run) /\
             (forall n k r, ~ In (OpPut n k r) (ops run)) /\
             (forall n, CacheStorage.get (caches (world run)) n = CacheStorage.get (caches w) n)).
  { intros v. cbv zeta. rewrite world_of. unfold ops. cbn [snd].
    split; [reflexivity|]. split; [|split].
    - intros [H|H]; [discriminate|]. apply in_map_iff in H. destruct H as (x & H & _).
      discriminate.
    - intros n k r [H|H]; [discriminate|]. apply in_map_iff in H. destruct H as (x & H & _).
      discriminate.
    - intros n. apply opened_get. }
  split; [|split].
  - intros (u & res & Hu & Hres & Hbad).
    assert (Hf : existsb fetch_failed (map net (manifest_requests location)) = true).
    { apply existsb_exists. exists (net (reloadReq location u)). split.
      - apply in_map, manifest_request_iff. exists u. split; [exact Hu | reflexivity].
      - rewrite Hres. simpl. now rewrite (bad_status_not_addable _ Hbad). }
    now rewrite Hf.
  - destruct (existsb fetch_failed _); [intros _; apply Hquiet|].
    destruct (existsb fetch_pending _); [intros _; apply Hquiet|].
    destruct (has_dup _); [intros _; apply Hquiet|].
    intros H. now contradiction H.
  - intros Hnone (u & Hu & Hpend).
    assert (Hf : existsb fetch_failed (map net (manifest_requests location)) = false).
    { destruct (existsb fetch_failed _) eqn:E; [exfalso | reflexivity].
      apply existsb_exists in E. destruct E as (o & Ho & Hbad).
      apply in_map_iff in Ho. destruct Ho as (r & <- & Hr).
      apply manifest_request_iff in Hr. destruct Hr as (u' & Hu' & ->).
      rewrite (Hnone u' Hu') in Hbad. discriminate. }
    assert (Hp : existsb fetch_pending (map net (manifest_requests location)) = true).
    { apply existsb_exists. exists (net (reloadReq location u)). split.
      - apply in_map, manifest_request_iff. exists u. split; [exact Hu | reflexivity].
      - now rewrite Hpend. }
    now rewrite Hf, Hp.
Qed.

(** X12.  Install, activate, go offline: when the install promise has
    fulfilled and the worker has activated, a navigation whose fetch
    rejects is answered with the response that install fetched for
    "index.html"; by then the worker has skipped waiting and claimed its
    clients. *)
Theorem installed_shell_served_offline (net1 net2 : Network) (req : Request) (w : World) :
  value (on_install location net1 w) = Fulfilled tt ->
  classify location req = Navigation ->
  net2 (reloadReq location (req_url req)) = Rejected ->
  let w1 := world (on_install location net1 w) in
  let w2 := world (on_activate w1) in
  exists shell,
    net1 (reloadReq location "index.html") = Fulfilled shell /\
    value (on_fetch location net2 req w2) = Some (Fulfilled (Resp shell)) /\
    skipWaitingCalled w2 = true /\
    clientsClaimed w2 = true.
Proof.
  intros Hok Hc Hnet w1 w2.
  destruct (install_fulfilled_lookup net1 w "index.html" Hok) as (shell & Hshell & Hlook).
  { simpl. tauto. }
  exists shell. split; [exact Hshell|].
  assert (Hskip : skipWaitingCalled w1 = true).
  { subst w1. revert Hok. rewrite on_install_run. cbv zeta.
    destruct (existsb fetch_failed _); [discriminate|].
    destruct (existsb fetch_pending _); [discriminate|].
    destruct (has_dup _); [discriminate|]. reflexivity. }
  assert (Hpre : CacheStorage.get (caches w2) PRECACHE = CacheStorage.get (caches w1) PRECACHE).
  { subst w2. rewrite on_activate_run, world_of. cbn [caches]. unfold CacheStorage.get.
    now rewrite (StorageFacts.find_filter current). }
  split; [|split].
  - rewrite (navigation_offline_value location net2 req w2 Hc Hnet), Hpre.
    fold w1 in Hlook. cbv zeta in Hlook. now rewrite Hlook.
  - subst w2. rewrite on_activate_run, world_of. exact Hskip.
  - subst w2. rewrite on_activate_run, world_of. reflexivity.
Qed.

End InstallFailures.

(** X13.  The message listener: [skipWaiting] is called for the message
    "SKIP_WAITING" and for no other; the caches and the claim of clients
    are not touched. *)
Theorem message_skips_waiting_on_signal_only (data : string) (w : World) :
  let run := on_message data w in
  (In OpSkipWaiting (ops run) <-> data = "SKIP_WAITING"%string) /\
  (skipWaitingCalled (world run) = true <->
   data = "SKIP_WAITING"%string \/ skipWaitingCalled w = true) /\
  caches (world run) = caches w /\
  clientsClaimed (world run) = clientsClaimed w.
Proof.
  cbv zeta. unfold on_message.
  destruct (String.eqb_spec data "SKIP_WAITING") as [-> | Hne].
  - unfold skipWaiting, ops, world. cbn [fst snd caches skipWaitingCalled clientsClaimed].
    repeat split; auto. intros _. now left.
  - unfold ret, ops, world. cbn [fst snd].
    repeat split; try tauto; try (intros []).
Qed.

(** ** The pattern of [isImageLike] *)

Lemma append_empty_r (s : string) : (s ++ "")%string = s.
Proof. induction s as [|c s IH]; simpl; [reflexivity | now rewrite IH]. Qed.

Lemma append_assoc_str (a b c : string) : ((a ++ b) ++ c)%string = (a ++ b ++ c)%string.
Proof. induction a as [|x a IH]; simpl; [reflexivity | now rewrite IH]. Qed.

Lemma strip_spec (p s r : string) : Str.strip p s = Some r <-> s = (p ++ r)%string.
Proof.
  revert s. induction p as [|a p IH]; intros s; simpl.
  - split; [now intros [= ->] | now intros ->].
  - destruct s as [|b s]; [split; discriminate|].
    destruct (Ascii.eqb_spec a b) as [-> | Hne].
    + rewrite IH. split; [now intros -> | now intros [= ->]].
    + split; [discriminate | intros [= H _]; now contradiction Hne].
Qed.

Lemma endsWith_spec (s p : string) :
  Str.endsWith s p = true <-> exists pre, s = (pre ++ p)%string.
Proof.
  induction s as [|c s IH]; cbn [Str.endsWith].
  - rewrite orb_false_r, String.eqb_eq. split.
    + intros <-. now exists ""%string.
    + intros ([|x pre] & H); simpl in H; [exact H | discriminate].
  - rewrite orb_true_iff, IH, String.eqb_eq. split.
    + intros [<- | (pre & ->)]; [now exists ""%string | now exists (String c pre)].
    + intros ([|x pre] & H); simpl in H; [now left|].
      right. exists pre. now inversion H.
Qed.

Lemma all_app (f : ascii -> bool) (a b : string) :
  Str.all f (a ++ b)%string = Str.all f a && Str.all f b.
Proof.
  induction a as [|c a IH]; simpl; [reflexivity|]. now rewrite IH, andb_assoc.
Qed.

Lemma none_exists {A} (f : A -> bool) (l : list A) :
  negb (existsb f l) = true <-> forall x, In x l -> f x = false.
Proof.
  rewrite negb_true_iff. split.
  - intros H x Hx. destruct (f x) eqn:E; [|reflexivity].
    rewrite <- H. symmetry. apply existsb_exists. now exists x.
  - intros H. destruct (existsb f l) eqn:E; [|reflexivity].
    apply existsb_exists in E. destruct E as (x & Hx & Hfx). now rewrite (H x Hx) in Hfx.
Qed.

(** A run of dots is a string in which no line terminator occurs. *)
Lemma dots_spec (t : string) :
  ImageRegex.dots t = true <->
  forall term, In term ImageRegex.line_terminators -> Str.includes t term = false.
Proof.
  induction t as [|c t IH].
  - split; [|reflexivity].
    intros _ term Hterm. simpl in Hterm.
    repeat (destruct Hterm as [<- | Hterm]; [reflexivity|]). contradiction.
  - cbn [ImageRegex.dots Str.includes]. unfold ImageRegex.terminator_here.
    rewrite andb_true_iff, none_exists, IH. split.
    + intros [Hhere Hrest] term Hterm. now rewrite (Hhere term Hterm), (Hrest term Hterm).
    + intros H. split; intros term Hterm; specialize (H term Hterm);
        apply orb_false_iff in H; tauto.
Qed.

Lemma tail_spec (q : string) :
  ImageRegex.tail q = true <->
  q = ""%string \/ exists t, q = String "?"%char t /\ ImageRegex.dots t = true.
Proof.
  destruct q as [|c q]; cbn [ImageRegex.tail].
  - split; [now left | reflexivity].
  - rewrite andb_true_iff. split.
    + intros [Hc Ht]. apply Ascii.eqb_eq in Hc. subst c. right. now exists q.
    + intros [H | (t & [= -> ->] & Ht)]; [discriminate|]. split; [reflexivity | exact Ht].
Qed.

Lemma here_spec (s : string) :
  ImageRegex.here s = true <->
  exists ext q, In ext ImageRegex.extensions /\
                s = String "."%char (ext ++ q)%string /\ ImageRegex.tail q = true.
Proof.
  unfold ImageRegex.here. rewrite existsb_exists. split.
  - intros (ext & Hext & H).
    destruct (Str.strip (String "."%char ext) s) as [rest|] eqn:E; [|discriminate].
    apply strip_spec in E. exists ext, rest. now repeat split.
  - intros (ext & q & Hext & -> & Ht). exists ext. split; [exact Hext|].
    replace (Str.strip (String "."%char ext) (String "."%char (ext ++ q)%string)) with (Some q);
      [exact Ht|].
    symmetry. now apply strip_spec.
Qed.

Lemma regex_match_intro (pre ext q : string) :
  In ext ImageRegex.extensions -> ImageRegex.tail q = true ->
  ImageRegex.test (pre ++ String "."%char (ext ++ q))%string = true.
Proof.
  intros Hext Ht. induction pre as [|c pre IH]; simpl.
  - apply orb_true_iff. left. apply here_spec. now exists ext, q.
  - apply orb_true_iff. now right.
Qed.

Lemma regex_match_inv (s : string) :
  ImageRegex.test s = true ->
  exists pre ext q, In ext ImageRegex.extensions /\
                    s = (pre ++ String "."%char (ext ++ q))%string /\
                    ImageRegex.tail q = true.
Proof.
  induction s as [|c s IH]; simpl; [discriminate|].
  intros H. apply orb_true_iff in H. destruct H as [H | H].
  - apply here_spec in H. destruct H as (ext & q & Hext & Hs & Ht).
    exists ""%string, ext, q. now repeat split.
  - destruct (IH H) as (pre & ext & q & Hext & -> & Ht).
    exists (String c pre), ext, q. now repeat split.
Qed.

(** X14.  The strings the pattern accepts: those made of any prefix, a dot,
    one of png, jpg, jpeg, gif, webp, svg in lower case, and then nothing
    or a question mark followed by a string in which none of the four line
    terminators (U+000A, U+000D, U+2028, U+2029) occurs. *)
Theorem image_regex_language (s : string) :
  ImageRegex.test s = true <->
  exists pre ext q,
    In ext ["png"; "jpg"; "jpeg"; "gif"; "webp"; "svg"]%string /\
    s = (pre ++ "." ++ ext ++ q)%string /\
    (q = ""%string \/
     exists t, q = ("?" ++ t)%string /\
               forall term, In term ImageRegex.line_terminators ->
                            Str.includes t term = false).
Proof.
  split.
  - intros H. destruct (regex_match_inv s H) as (pre & ext & q & Hext & Hs & Ht).
    exists pre, ext, q. split; [exact Hext|]. split; [exact Hs|].
    apply tail_spec in Ht. destruct Ht as [-> | (t & -> & Ht)]; [now left|].
    right. exists t. split; [reflexivity|]. now apply dots_spec.
  - intros (pre & ext & q & Hext & -> & Hq).
    apply (regex_match_intro pre ext q); [exact Hext|]. apply tail_spec.
    destruct Hq as [-> | (t & -> & Ht)]; [now left|].
    right. exists t. split; [reflexivity|]. now apply dots_spec.
Qed.

Lemma break_fst_clean (stop : ascii -> bool) (s : string) :
  Str.all (fun c => negb (stop c)) (fst (Str.break stop s)) = true.
Proof.
  induction s as [|c s IH]; simpl; [reflexivity|].
  destruct (stop c) eqn:E; [reflexivity|].
  destruct (Str.break stop s) as [a b]. simpl in *. now rewrite E, IH.
Qed.

(** The path of a parsed URL holds neither a question mark nor a hash. *)
Lemma pathname_clean (s : string) :
  Str.all (fun c => negb (Url.path_end c)) (pathname (Url.parse s)) = true.
Proof.
  unfold Url.parse.
  destruct (Str.break (Str.ch ":") s) as [scheme r1].
  destruct (Str.break Url.host_end (Url.after_scheme r1)) as [h r2].
  pose proof (break_fst_clean Url.path_end r2) as Hp.
  destruct (Str.break Url.path_end r2) as [p rest]. cbn [pathname fst] in *.
  destruct (String.eqb p ""); [reflexivity | exact Hp].
Qed.

(** X15.  On the path of a request's URL the optional query group of the
    pattern never applies: a request is image-like exactly when its
    destination is "image" or its path ends in a dot and one of the six
    extensions. *)
Theorem image_like_by_path_end (req : Request) :
  isImageLike req = true <->
  req_destination req = "image"%string \/
  exists ext, In ext ["png"; "jpg"; "jpeg"; "gif"; "webp"; "svg"]%string /\
              Str.endsWith (pathname (Url.parse (req_url req))) ("." ++ ext)%string = true.
Proof.
  unfold isImageLike. cbv zeta. rewrite orb_true_iff, String.eqb_eq.
  pose proof (pathname_clean (req_url req)) as Hclean.
  split; (intros [H | H]; [now left | right]).
  - destruct (regex_match_inv _ H) as (pre & ext & q & Hext & Hs & Ht).
    exists ext. split; [exact Hext|]. apply endsWith_spec. exists pre.
    apply tail_spec in Ht. destruct Ht as [-> | (t & -> & _)].
    + now rewrite append_empty_r in Hs.
    + exfalso. rewrite Hs in Hclean.
      rewrite all_app in Hclean. apply andb_true_iff in Hclean. destruct Hclean as [_ Hc].
      simpl in Hc.
      rewrite all_app in Hc. apply andb_true_iff in Hc. destruct Hc as [_ Hc].
      simpl in Hc. discriminate.
  - destruct H as (ext & Hext & He). apply endsWith_spec in He. destruct He as (pre & ->).
    replace (pre ++ "." ++ ext)%string with (pre ++ String "."%char (ext ++ ""))%string
      by (now rewrite append_empty_r).
    now apply (regex_match_intro pre ext "").
Qed.

(** ** Well-formed stores are kept well-formed *)

Lemma keys_put_in (c : Cache.t) (k x : string) (r : Response) :
  In x (map fst (Cache.put c k r)) -> In x (map fst c) \/ x = k.
Proof.
  unfold Cache.put, Cache.remove. rewrite map_app, in_app_iff. simpl.
  intros [H | [H | []]]; [left | now right].
  apply in_map_iff in H. destruct H as (e & <- & He). apply filter_In in He.
  apply in_map. tauto.
Qed.








(** ** The further properties on the sample inputs *)

Lemma navigation_online_stores_fresh_witness :
  let run := on_fetch Sample.site (fun _ => Fulfilled Scenario.server_error) Sample.page
               Sample.installed in
  let typed := on_fetch Sample.site (Sample.serving "worker code") Scenario.script_page
                 Sample.installed in
  let part := on_fetch Sample.site (fun _ => Fulfilled Scenario.partial_content) Sample.page
                Sample.installed in
  value run = Some (Fulfilled (Resp Scenario.server_error)) /\
  Cache.lookup (CacheStorage.get (caches (world run)) RUNTIME) (req_url Sample.page) =
  Some Scenario.server_error /\
  Cache.lookup (CacheStorage.get (caches (world typed)) RUNTIME)
               "https://user.github.io/edu-ideabook/sw.js" =
  Some (Sample.ok "worker code") /\
  value part = Some (Fulfilled (Resp Scenario.partial_content)) /\
  (forall n, CacheStorage.get (caches (world part)) n =
             CacheStorage.get (caches Sample.installed) n).
Proof.
  cbv zeta.
  destruct (navigation_online_stores_fresh Sample.site (fun _ => Fulfilled Scenario.server_error)
              Sample.page Sample.installed Scenario.server_error eq_refl eq_refl)
    as (Hv & _ & Hl & _).
  destruct (navigation_online_stores_fresh Sample.site (Sample.serving "worker code")
              Scenario.script_page Sample.installed (Sample.ok "worker code") eq_refl eq_refl)
    as (_ & _ & Hl' & _).
  destruct (navigation_online_stores_fresh Sample.site (fun _ => Fulfilled Scenario.partial_content)
              Sample.page Sample.installed Scenario.partial_content eq_refl eq_refl)
    as (Hv'' & _ & _ & Hl'').
  split; [exact Hv|].
  split; [apply Hl; discriminate|].
  split; [apply Hl'; discriminate|].
  split; [exact Hv''|].
  apply Hl''. reflexivity.
Defined.

Lemma offline_navigation_ignores_runtime_witness :
  value (on_fetch Sample.site Sample.offline Sample.page
           (world (on_fetch Sample.site (Sample.serving "page") Sample.page Sample.fresh))) =
  Some (Fulfilled (Resp Response_error)).
Proof.
  rewrite (proj2 (offline_navigation_ignores_runtime Sample.site (Sample.serving "page")
                    Sample.offline Sample.page Sample.fresh eq_refl eq_refl)).
  reflexivity.
Defined.

Lemma swr_miss_then_offline_hit_witness :
  let run := on_fetch Sample.site (Sample.serving "css") Sample.stylesheet Sample.fresh in
  value run = Some (Fulfilled (Resp (Sample.ok "css"))) /\
  value (on_fetch Sample.site Sample.offline Sample.stylesheet (world run)) =
  Some (Fulfilled (Resp (Sample.ok "css"))).
Proof.
  apply (swr_miss_then_offline_hit Sample.site (Sample.serving "css") Sample.offline
           Sample.stylesheet Sample.fresh (Sample.ok "css")).
  - left. reflexivity.
  - reflexivity.
  - reflexivity.
  - left. reflexivity.
  - reflexivity.
Defined.

Lemma swr_unstored_response_passed_on_witness :
  let run := on_fetch Sample.site (fun _ => Fulfilled Sample.not_found) Sample.stylesheet
               Sample.fresh in
  value run = Some (Fulfilled (Resp Sample.not_found)) /\
  (forall n, CacheStorage.get (caches (world run)) n = CacheStorage.get (caches Sample.fresh) n) /\
  (forall n k r', ~ In (OpPut n k r') (ops run)).
Proof.
  apply (swr_unstored_response_passed_on Sample.site (fun _ => Fulfilled Sample.not_found)
           Sample.stylesheet Sample.fresh Sample.not_found).
  - left. reflexivity.
  - reflexivity.
  - intros [H | H]; discriminate H.
Defined.

Lemma passthrough_network_then_runtime_witness :
  on_fetch Sample.site (Sample.serving "icon") Scenario.favicon_script Sample.installed =
  (Some (Fulfilled (Resp (Sample.ok "icon"))), Sample.installed, [OpFetch Scenario.favicon_script]) /\
  value (on_fetch Sample.site Sample.offline Scenario.favicon_script Sample.installed) =
  Some (Fulfilled (Resp Response_error)).
Proof.
  destruct (passthrough_network_then_runtime Sample.site (Sample.serving "icon")
              Scenario.favicon_script Sample.installed eq_refl) as (Hnet & _).
  destruct (passthrough_network_then_runtime Sample.site Sample.offline
              Scenario.favicon_script Sample.installed eq_refl) as (_ & Hoff & _).
  split.
  - apply Hnet. reflexivity.
  - apply (proj2 (Hoff eq_refl)). reflexivity.
Defined.

Lemma passthrough_fallback_serves_swr_entry_witness :
  classify Sample.site Scenario.favicon = ExternalImage /\
  classify Sample.site Scenario.favicon_script = Passthrough /\
  value (on_fetch Sample.site Sample.offline Scenario.favicon_script
           (world (on_fetch Sample.site (Sample.serving "icon") Scenario.favicon Sample.fresh))) =
  Some (Fulfilled (Resp (Sample.ok "icon"))).
Proof.
  split; [reflexivity|]. split; [reflexivity|].
  apply (passthrough_fallback_serves_swr_entry Sample.site (Sample.serving "icon") Sample.offline
           Scenario.favicon Scenario.favicon_script Sample.fresh (Sample.ok "icon")).
  - reflexivity.
  - right. reflexivity.
  - reflexivity.
  - reflexivity.
  - reflexivity.
  - reflexivity.
Defined.

Lemma fetch_listener_stores_fetched_response_witness :
  let run := on_fetch Sample.site (Sample.serving "css") Sample.stylesheet Sample.fresh in
  (exists fetched, In (OpFetch fetched) (ops run) /\
                   Sample.serving "css" fetched = Fulfilled (Sample.ok "css")) /\
  Cache.count (CacheStorage.get (caches (world run)) RUNTIME) (req_url Sample.stylesheet) = 1.
Proof.
  cbv zeta.
  destruct (fetch_listener_stores_fetched_response Sample.site (Sample.serving "css")
              Sample.stylesheet Sample.fresh RUNTIME (req_url Sample.stylesheet) (Sample.ok "css"))
    as (_ & _ & Hfetched & _ & Hcount).
  - right. right. right. left. reflexivity.
  - split; [exact Hfetched | exact Hcount].
Defined.

Lemma install_rejects_bad_status_witness :
  value (on_install Sample.site Scenario.missing_manifest Sample.fresh) = Rejected /\
  skipWaitingCalled (world (on_install Sample.site Scenario.missing_manifest Sample.fresh)) = false /\
  value (on_install Sample.site Scenario.slow_icon Sample.fresh) = Pending.
Proof.
  destruct (install_rejects_bad_status Sample.site Scenario.missing_manifest Sample.fresh)
    as (Hbad & Hquiet & _).
  destruct (install_rejects_bad_status Sample.site Scenario.slow_icon Sample.fresh)
    as (_ & _ & Hpending).
  assert (Hrej : value (on_install Sample.site Scenario.missing_manifest Sample.fresh) = Rejected).
  { apply Hbad. exists "manifest.json"%string, Sample.not_found.
    split; [simpl; tauto|]. split; [reflexivity|]. right. change (299 < 404). lia. }
  split; [exact Hrej|]. split.
  - apply Hquiet. rewrite Hrej. discriminate.
  - apply Hpending.
    + intros u Hu. simpl in Hu.
      repeat (destruct Hu as [<- | Hu]; [reflexivity|]). contradiction.
    + exists "icon-512x512.png"%string. split; [simpl; tauto | reflexivity].
Defined.

Lemma installed_shell_served_offline_witness :
  let w2 := world (on_activate (world (on_install Sample.site Sample.echo Sample.fresh))) in
  value (on_fetch Sample.site Sample.offline Sample.page w2) =
  Some (Fulfilled (Resp (Sample.ok "https://user.github.io/edu-ideabook/index.html"))) /\
  skipWaitingCalled w2 = true /\ clientsClaimed w2 = true.
Proof.
  cbv zeta.
  destruct (installed_shell_served_offline Sample.site Sample.echo Sample.offline Sample.page
              Sample.fresh eq_refl eq_refl eq_refl) as (shell & Hshell & Hv & Hs & Hc).
  injection Hshell as <-.
  split; [exact Hv|]. split; [exact Hs | exact Hc].
Defined.


Lemma fetch_listener_frame_witness :
  let run := on_fetch Sample.site (Sample.serving "new css") Sample.stylesheet Sample.installed in
  CacheStorage.get (caches (world run)) PRECACHE = CacheStorage.get (caches Sample.installed) PRECACHE /\
  skipWaitingCalled (world run) = false /\
  (forall n, ~ In (OpDelete n) (ops run)).
Proof.
  cbv zeta.
  destruct (fetch_listener_frame Sample.site (Sample.serving "new css") Sample.stylesheet
              Sample.installed) as (Hother & _ & _ & _ & Hskip & _ & Hdel & _).
  split; [|split; [exact Hskip | exact Hdel]].
  apply Hother. discriminate.
Defined.

Lemma respondWith_skipped_iff_witness :
  value (on_fetch Sample.site Sample.offline Sample.post_form Sample.installed) = None /\
  value (on_fetch Sample.site Sample.offline Sample.worker_script Sample.installed) = None /\
  value (on_fetch Sample.site Sample.offline Scenario.script_page Sample.installed) <> None.
Proof.
  split; [|split].
  - apply (proj1 (respondWith_skipped_iff Sample.site Sample.offline Sample.post_form
                    Sample.installed)).
    left. reflexivity.
  - apply (proj1 (respondWith_skipped_iff Sample.site Sample.offline Sample.worker_script
                    Sample.installed)).
    right. repeat split.
  - intros H.
    apply (proj1 (respondWith_skipped_iff Sample.site Sample.offline Scenario.script_page
                    Sample.installed)) in H.
    destruct H as [H | [H _]]; discriminate H.
Defined.

Lemma activate_bounded_and_idempotent_witness :
  let w1 := world (on_activate Sample.fresh) in
  CacheStorage.keys (caches w1) = [] /\
  world (on_activate w1) = w1 /\
  ops (on_activate (world (on_activate Sample.after_upgrades))) = [OpClaim; OpKeys].
Proof.
  cbv zeta.
  destruct (activate_bounded_and_idempotent Sample.fresh) as (_ & _ & _ & _ & Hidem & _).
  destruct (activate_bounded_and_idempotent Sample.after_upgrades) as (_ & _ & _ & _ & _ & Hops).
  split; [reflexivity|]. split; [exact Hidem | exact Hops].
Defined.

Lemma message_skips_waiting_on_signal_only_witness :
  skipWaitingCalled (world (on_message "SKIP_WAITING" Sample.fresh)) = true /\
  ~ In OpSkipWaiting (ops (on_message "skip_waiting" Sample.fresh)).
Proof.
  split.
  - apply (proj1 (proj2 (message_skips_waiting_on_signal_only "SKIP_WAITING" Sample.fresh))).
    left. reflexivity.
  - intros H.
    apply (proj1 (message_skips_waiting_on_signal_only "skip_waiting" Sample.fresh)) in H.
    discriminate H.
Defined.

Lemma image_regex_language_witness :
  ImageRegex.test "/vi/abc/hqdefault.jpg" = true /\
  ImageRegex.test "/vi/abc/hqdefault.jpg?size=2" = true.
Proof.
  split.
  - apply (proj2 (image_regex_language "/vi/abc/hqdefault.jpg")).
    exists "/vi/abc/hqdefault"%string, "jpg"%string, ""%string.
    split; [simpl; tauto|]. split; [reflexivity | now left].
  - apply (proj2 (image_regex_language "/vi/abc/hqdefault.jpg?size=2")).
    exists "/vi/abc/hqdefault"%string, "jpg"%string, "?size=2"%string.
    split; [simpl; tauto|]. split; [reflexivity|].
    right. exists "size=2"%string. split; [reflexivity|].
    intros term Hterm. simpl in Hterm.
    repeat (destruct Hterm as [<- | Hterm]; [reflexivity|]). contradiction.
Defined.

Lemma image_like_by_path_end_witness :
  isImageLike (Sample.get_request "https://cdn.example.com/pic.webp?v=3") = true /\
  isImageLike (Sample.get_request "https://cdn.example.com/pic.PNG") = false.
Proof.
  split.
  - apply (proj2 (image_like_by_path_end (Sample.get_request "https://cdn.example.com/pic.webp?v=3"))).
    right. exists "webp"%string. split; [simpl; tauto | reflexivity].
  - destruct (isImageLike (Sample.get_request "https://cdn.example.com/pic.PNG")) eqn:E;
      [|reflexivity].
    apply (proj1 (image_like_by_path_end (Sample.get_request "https://cdn.example.com/pic.PNG")))
      in E.
    destruct E as [E | (ext & Hext & He)]; [discriminate E|].
    simpl in Hext.
    repeat (destruct Hext as [<- | Hext]; [discriminate He|]). contradiction.
Defined.

(** C4.  With the worker at the root of its host (the scope that the
    header of sw.js names), the manifest's first two entries, "/" and "./",
    resolve to one URL.  Every manifest resource is fetched and every fetch
    resolves with a response [addAll] accepts, none fails; yet the batch
    is refused: the install promise rejects, nothing is written to the
    precache store and [skipWaiting] is not called. *)
Theorem install_at_root_refused :
  let run := on_install Sample.root_site Sample.echo Sample.fresh in
  (forall u, In u PRECACHE_URLS ->
             In (OpFetch (reloadReq Sample.root_site u)) (ops run) /\
             exists res, Sample.echo (reloadReq Sample.root_site u) = Fulfilled res /\
                         addable res = true) /\
  Url.resolve Sample.root_site "/" = Url.resolve Sample.root_site "./" /\
  value run = Rejected /\
  CacheStorage.get (caches (world run)) PRECACHE = [] /\
  skipWaitingCalled (world run) = false.
Proof.
  cbv zeta. split; [|repeat split; reflexivity].
  intros u Hu. split.
  - apply install_fetches, manifest_request_iff. exists u. split; [exact Hu | reflexivity].
  - exists (Sample.ok (req_url (reloadReq Sample.root_site u))). split; reflexivity.
Qed.

(** A request whose URL carries a fragment matches the entry stored
    without it, and replaces it when its response is stored. *)
Example fragment_request_matches_entry :
  let run := on_fetch Sample.site (Sample.serving "new") Scenario.stylesheet_top Sample.installed in
  value (on_fetch Sample.site Sample.offline Scenario.stylesheet_top Sample.installed) =
  Some (Fulfilled (Resp (Sample.ok "css"))) /\
  value run = Some (Fulfilled (Resp (Sample.ok "css"))) /\
  Cache.lookup (CacheStorage.get (caches (world run)) RUNTIME) (req_url Sample.stylesheet) =
  Some (Sample.ok "new") /\
  length (CacheStorage.get (caches (world run)) RUNTIME) = 1.
Proof. cbv zeta. repeat split; reflexivity. Qed.

(** The pattern's dot refuses the line separator U+2028. *)
Example image_regex_refuses_line_separator :
  ImageRegex.test
    ("/a.png?x" ++ String "226"%char (String "128"%char (String "168"%char "y")))%string
  = false.
Proof. reflexivity. Qed.
